(** * Nao: the SauceNAO image-lookup plugin (src/Nao.py)

    A shallow embedding of [NaoImageSearchPlugin] and the properties its
    specification states about it.

    Python values are the JSON-shaped values the plugin receives; a [str]
    is held as its UTF-8 encoding, so the literals below are the bytes of
    the source's literals.  The outcome of a call is [Ok v] or [Raise e].
    Synchronous code raises the [Exception] subclasses of [exn]; where the
    code awaits, a [BaseException] that is no [Exception], such as
    [asyncio.CancelledError], can be raised too, and [except Exception]
    does not catch it. *)

From Stdlib Require Import Floats.SpecFloat.
From stdpp Require Import gmap strings list fin_maps pretty.

Set Warnings "-register-all".
Local Open Scope string_scope.
Local Open Scope list_scope.

(** ** Python values *)

Inductive value : Type :=
  | VNone
  | VBool (b : bool)
  | VInt (z : Z)
  | VFloat (f : spec_float)
  | VStr (s : string)
  | VList (l : list value)
  | VDict (d : gmap string value).

Inductive exn : Type :=
  | AttributeError
  | TypeError
  | KeyError
  | IndexError
  | HostError
  | ClientError.

(** The subclasses of [BaseException] outside [Exception]. *)
Inductive base_exn : Type :=
  | CancelledError
  | KeyboardInterrupt
  | SystemExit
  | GeneratorExit.

(** Anything a [raise] can carry. *)
Inductive raised : Type :=
  | Exception (e : exn)
  | BaseException (b : base_exn).

Inductive outcome (E A : Type) : Type :=
  | Ok (a : A)
  | Raise (e : E).
Arguments Ok {E A} a.
Arguments Raise {E A} e.

(** The outcome of synchronous code: it returns or raises an
    [Exception]. *)
Abbreviation result := (outcome exn).

(** ** The result monad of a call that may raise *)

Module Res.

Definition bind {A B : Type} (r : result A) (k : A -> result B) : result B :=
  match r with
  | Ok a => k a
  | Raise e => Raise e
  end.

(** A [for] loop whose body may raise: the state is threaded through the
    items in order and the first exception ends the loop. *)
Fixpoint for_each {A S : Type} (body : S -> A -> result S) (items : list A)
    (s : S) : result S :=
  match items with
  | [] => Ok s
  | x :: rest => bind (body s x) (for_each body rest)
  end.

End Res.

Declare Scope res_scope.
Delimit Scope res_scope with res.
Notation "x <- c ;; k" := (Res.bind c (fun x => k))
  (at level 100, c at next level, right associativity) : res_scope.

(** ** Operations of the Python runtime the plugin uses *)

Module Py.

(** [bool(v)]: the truth value the [or], [not] and [if] of the source
    test. *)
Definition truthy (v : value) : bool :=
  match v with
  | VNone => false
  | VBool b => b
  | VInt z => negb (z =? 0)%Z
  | VFloat f =>
      match f with
      | S754_zero _ => false
      | _ => true
      end
  | VStr s => negb (String.eqb s "")
  | VList l => negb (Nat.eqb (length l) 0)
  | VDict d => negb (Nat.eqb (size d) 0)
  end.

(** [a or b] *)
Definition or (a b : value) : value := if truthy a then a else b.

(** [d.get(k)] and [d.get(k, dflt)] on a dict. *)
Definition get (d : gmap string value) (k : string) : value :=
  default VNone (d !! k).

Definition get_default (d : gmap string value) (k : string) (dflt : value)
  : value :=
  default dflt (d !! k).

(** [v.get]: only a dict has the method. *)
Definition as_dict (v : value) : result (gmap string value) :=
  match v with
  | VDict d => Ok d
  | _ => Raise AttributeError
  end.

(** [t.startswith(p)]: only a str has the method. *)
Definition startswith (t : value) (p : string) : result bool :=
  match t with
  | VStr s => Ok (String.prefix p s)
  | _ => Raise AttributeError
  end.

(** [sub in s] on two strs: [sub] occurs in [s] at some position. *)
Fixpoint contains (sub s : string) : bool :=
  String.prefix sub s ||
  match s with
  | EmptyString => false
  | String _ rest => contains sub rest
  end.

(** A continuation byte of UTF-8, [10xxxxxx]. *)
Definition is_continuation (c : Ascii.ascii) : bool :=
  match c with
  | Ascii.Ascii _ _ _ _ _ _ false true => true
  | _ => false
  end.

(** The characters of a str: every lead byte with the continuation bytes
    that follow it.  The first component collects the continuation bytes
    met before any lead byte. *)
Fixpoint split_chars (s : string) : string * list string :=
  match s with
  | EmptyString => (EmptyString, [])
  | String c rest =>
      let '(k, chars) := split_chars rest in
      if is_continuation c then (String c k, chars)
      else (EmptyString, String c k :: chars)
  end.

Definition chars (s : string) : list string := (split_chars s).2.

(** [iter(v)] as the [for] statement takes it: the items of a list, the
    characters of a str, the keys of a dict; nothing else of a JSON value
    is iterable. *)
Definition iter (v : value) : result (list value) :=
  match v with
  | VList l => Ok l
  | VStr s => Ok (VStr <$> chars s)
  | VDict d => Ok (VStr <$> (map_to_list d).*1)
  | _ => Raise TypeError
  end.

(** [v[0]].  The keys of a dict read from JSON are strs, so [0] is never
    one of them. *)
Definition index0 (v : value) : result value :=
  match v with
  | VList (x :: _) => Ok x
  | VList [] => Raise IndexError
  | VStr s =>
      match chars s with
      | c :: _ => Ok (VStr c)
      | [] => Raise IndexError
      end
  | VDict _ => Raise KeyError
  | _ => Raise TypeError
  end.

(** [tag in text] for a str [tag]: substring of a str, element of a list,
    key of a dict. *)
Definition contains_tag (tag : string) (text : value) : result bool :=
  match text with
  | VStr s => Ok (contains tag s)
  | VList l =>
      Ok (existsb (fun v => match v with
                            | VStr s => String.eqb s tag
                            | _ => false
                            end) l)
  | VDict d => Ok (bool_decide (is_Some (d !! tag)))
  | _ => Raise TypeError
  end.

Definition nl : string := String (Ascii.ascii_of_nat 10) EmptyString.

Section Str.

(** [repr] of a float, a list or a dict is the interpreter's and is
    left open. *)
Variable repr : value -> string.

(** [str(v)], what an f-string puts for [{v}]. *)
Definition str (v : value) : string :=
  match v with
  | VNone => "None"
  | VBool true => "True"
  | VBool false => "False"
  | VInt z => pretty z
  | VStr s => s
  | _ => repr v
  end.

End Str.

End Py.

(** ** Effects: the HTTP request and the error log *)

Inductive event : Type :=
  | Get (url : string) (params : gmap string value)
  | LogError (message : string)
  | LogException (message : string) (e : exn).

(** What [session.get] gives back: it raises an [Exception], or there is
    a response with a status and the outcome of [response.json()], or a
    [BaseException] that is no [Exception] is raised while the request or
    its body is awaited (the task is cancelled, the process is
    interrupted). *)
Inductive http_outcome : Type :=
  | Failure (e : exn)
  | Response (status : Z) (json : result value)
  | Interrupted (b : base_exn).

(** A computation that leaves a trace of events and returns or raises. *)
Module M.

Definition t (A : Type) : Type := (list event * outcome raised A)%type.

Definition ret {A : Type} (a : A) : t A := ([], Ok a).

Definition bind {A B : Type} (c : t A) (k : A -> t B) : t B :=
  match c with
  | (tr, Ok a) => let '(tr', r) := k a in ((tr ++ tr')%list, r)
  | (tr, Raise e) => (tr, Raise e)
  end.

(** A synchronous call inside the computation: what it raises is an
    [Exception]. *)
Definition lift {A : Type} (r : result A) : t A :=
  ([], match r with
       | Ok a => Ok a
       | Raise e => Raise (Exception e)
       end).

(** A [BaseException] raised at an [await]. *)
Definition interrupt {A : Type} (b : base_exn) : t A :=
  ([], Raise (BaseException b)).

Definition emit (ev : event) : t unit := ([ev], Ok tt).

(** [try: body except Exception as e: handler]: the handler takes the
    [Exception]s; any other [BaseException] goes on to the caller. *)
Definition try_except {A : Type} (body : t A) (handler : exn -> t A) : t A :=
  match body with
  | (tr, Ok a) => (tr, Ok a)
  | (tr, Raise (Exception e)) =>
      let '(tr', r) := handler e in ((tr ++ tr')%list, r)
  | (tr, Raise (BaseException b)) => (tr, Raise (BaseException b))
  end.

Definition trace {A : Type} (c : t A) : list event := c.1.
Definition outcome {A : Type} (c : t A) : outcome raised A := c.2.

(** The requests a computation sent, in order. *)
Definition requests {A : Type} (c : t A)
  : list (string * gmap string value) :=
  omap (fun ev => match ev with
                  | Get url params => Some (url, params)
                  | _ => None
                  end) (trace c).

End M.

Declare Scope m_scope.
Delimit Scope m_scope with m.
Notation "x <- c ;; k" := (M.bind c (fun x => k))
  (at level 100, c at next level, right associativity) : m_scope.
Notation "c ;; k" := (M.bind c (fun _ => k))
  (at level 100, right associativity) : m_scope.

(** ** The plugin *)

(** [self]: the configuration read in [__init__], the session, and what
    the plugin takes from [PluginBase] of the host framework, which is not
    part of this repository: its methods may raise.  The trigger tag is a
    str, as the configuration has it; the API key is whatever the
    configuration holds, [None] when it holds none. *)
Record plugin : Type := {
  api_key : value;
  trigger_tag : string;
  session_get : string -> gmap string value -> http_outcome;
  name : value;
  _extract_username : gmap string value -> result value;
  _log_plugin_action : string -> string -> result unit;
  _validate_plugin_response : gmap string value -> result value;
}.

Definition saucenao_api_url : string := "https://saucenao.com/search.php".

Definition nothing_found : string := "没有找到相似的图片哦～".

Section Nao.

(** The interpreter's [repr] of floats, lists and dicts. *)
Variable repr : value -> string.
Variable self : plugin.

Local Abbreviation str := (Py.str repr).

Local Open Scope res_scope.

(** The body of the [for file_info in files] loop. *)
Definition extract_file (images : list value) (file_info : value)
  : result (list value) :=
  match file_info with
  | VDict fi =>
      let file_type := Py.get_default fi "type" (VStr "") in
      image <- Py.startswith file_type "image/" ;;
      if image then
        let url := Py.or (Py.get fi "url") (Py.get fi "thumbnailUrl") in
        if Py.truthy url then Ok ((images ++ [url])%list) else Ok images
      else Ok images
  | _ => Ok images
  end.

Definition _extract_images_from_note (note_data : gmap string value)
  : result (list value) :=
  let images := [] in
  note <- Py.as_dict (Py.get_default note_data "note" (VDict note_data)) ;;
  let files := Py.get_default note "files" (VList []) in
  items <- Py.iter files ;;
  Res.for_each extract_file items images.

Definition _has_trigger_tag (note_data : gmap string value) : result bool :=
  note <- Py.as_dict (Py.get_default note_data "note" (VDict note_data)) ;;
  let text := Py.or (Py.get_default note "text" (VStr "")) (VStr "") in
  Py.contains_tag (trigger_tag self) text.

(** The fields [_parse_saucenao_response] reads from the header and the
    data of the first result. *)
Definition similarity_of (header : gmap string value) : value :=
  Py.get_default header "similarity" (VStr "0").

Definition title_of (result_data : gmap string value) : value :=
  Py.or (Py.or (Py.or (Py.or (Py.get result_data "title")
                             (Py.get result_data "jp_name"))
                      (Py.get result_data "eng_name"))
               (Py.get result_data "source"))
        (VStr "未知").

Definition author_of (result_data : gmap string value) : value :=
  Py.or (Py.or (Py.or (Py.get result_data "author")
                      (Py.get result_data "member_name"))
               (Py.get result_data "creator"))
        (VStr "未知").

Definition source_url_of (result_data : gmap string value) : result value :=
  first <- (if Py.truthy (Py.get result_data "ext_urls")
            then Py.index0
                   (Py.get_default result_data "ext_urls" (VList [VDict ∅]))
            else Ok VNone) ;;
  Ok (Py.or first (VStr "")).

Definition index_name_of (header : gmap string value) : value :=
  Py.get_default header "index_name" (VStr "").

(** The text block built from the five fields. *)
Definition format_result (similarity title author source_url index_name : value)
  : string :=
  let result_text := "🔍 相似度: " +:+ str similarity +:+ "%" +:+ Py.nl +:+ Py.nl in
  let result_text := result_text +:+ "📝 标题: " +:+ str title +:+ Py.nl in
  let result_text := result_text +:+ "👤 作者: " +:+ str author +:+ Py.nl in
  let result_text :=
    if Py.truthy source_url
    then result_text +:+ "🔗 来源: " +:+ str source_url +:+ Py.nl
    else result_text in
  let result_text :=
    if Py.truthy index_name
    then result_text +:+ "📚 数据库: " +:+ str index_name
    else result_text in
  result_text.

(** The [try] block of [_parse_saucenao_response]. *)
Definition parse_results (data : value) : result (option string) :=
  d <- Py.as_dict data ;;
  let results := Py.get_default d "results" (VList []) in
  if negb (Py.truthy results) then Ok None else
  first_result <- Py.index0 results ;;
  first_result <- Py.as_dict first_result ;;
  let header := Py.get_default first_result "header" (VDict ∅) in
  let result_data := Py.get_default first_result "data" (VDict ∅) in
  header <- Py.as_dict header ;;
  let similarity := similarity_of header in
  result_data <- Py.as_dict result_data ;;
  let title := title_of result_data in
  let author := author_of result_data in
  source_url <- source_url_of result_data ;;
  let index_name := index_name_of header in
  Ok (Some (format_result similarity title author source_url index_name)).

Local Close Scope res_scope.
Local Open Scope m_scope.

Definition _parse_saucenao_response (data : value) : M.t (option string) :=
  M.try_except
    (M.lift (parse_results data))
    (fun e => M.emit (LogException "解析 SauceNAO 响应失败: " e) ;; M.ret None).

(** The [params] dict of a search: the literal, then the [pop]. *)
Definition search_params (image_url : value) : gmap string value :=
  let params : gmap string value :=
    <["db" := VStr "999"]>
      (<["numres" := VStr "3"]>
         (<["url" := image_url]>
            (<["api_key" := api_key self]>
               (<["output_type" := VStr "2"]> ∅)))) in
  if negb (Py.truthy (api_key self)) then delete "api_key" params else params.

(** [async with self.session.get(url, params=params) as response] *)
Definition session_request (url : string) (params : gmap string value)
  : M.t (Z * result value) :=
  M.emit (Get url params) ;;
  match session_get self url params with
  | Failure e => M.lift (Raise e)
  | Response status json => M.ret (status, json)
  | Interrupted b => M.interrupt b
  end.

Definition _search_image_by_url (image_url : value) : M.t (option string) :=
  M.try_except
    (let params := search_params image_url in
     response <- session_request saucenao_api_url params ;;
     if (response.1 =? 200)%Z then
       data <- M.lift response.2 ;;
       _parse_saucenao_response data
     else
       M.emit (LogError ("SauceNAO API 请求失败: " +:+ pretty response.1)) ;;
       M.ret None)
    (fun e => M.emit (LogException "SauceNAO 图片搜索失败: " e) ;; M.ret None).

Definition _create_response (response_text : value) (content_key : string)
  : M.t (gmap string value) :=
  M.try_except
    (let response : gmap string value :=
       <[content_key := response_text]>
         (<["plugin_name" := name self]>
            (<["handled" := VBool true]> ∅)) in
     valid <- M.lift (_validate_plugin_response self response) ;;
     M.ret (if Py.truthy valid then response else ∅))
    (fun e => M.emit (LogException "创建响应时出错: " e) ;; M.ret ∅).

(** [search_result or "没有找到相似的图片哦～"] on an [Optional[str]]. *)
Definition result_or_nothing_found (search_result : option string) : value :=
  Py.or (from_option VStr VNone search_result) (VStr nothing_found).

Definition _handle_image_search_event (data : gmap string value)
    (action_desc : string) : M.t (option (gmap string value)) :=
  M.try_except
    (images <- M.lift (_extract_images_from_note data) ;;
     if negb (Py.truthy (VList images)) then M.ret None else
     has_tag <- M.lift (_has_trigger_tag data) ;;
     if negb has_tag then M.ret None else
     image_url <- M.lift (Py.index0 (VList images)) ;;
     username <- M.lift (_extract_username self data) ;;
     M.lift (_log_plugin_action self action_desc ("来自 @" +:+ str username)) ;;
     search_result <- _search_image_by_url image_url ;;
     response <- _create_response (result_or_nothing_found search_result)
                   "response" ;;
     M.ret (Some response))
    (fun e => M.emit (LogException "NaoPlugin 处理图片事件出错: " e) ;;
              M.ret None).

Definition on_mention (mention_data : gmap string value)
  : M.t (option (gmap string value)) :=
  _handle_image_search_event mention_data "处理 Nao 图片识别请求".

Definition on_message (message_data : gmap string value)
  : M.t (option (gmap string value)) :=
  _handle_image_search_event message_data "处理 Nao 图片识别消息".

End Nao.

(** ** What the specification speaks of *)

(** An entry of [files] that [_extract_images_from_note] can look at
    without raising: anything that is not a mapping, or a mapping whose
    [type] is absent or a str. *)
Definition typed_entry (v : value) : bool :=
  match v with
  | VDict fi =>
      match Py.get_default fi "type" (VStr "") with
      | VStr _ => true
      | _ => false
      end
  | _ => true
  end.

Definition is_mapping (v : value) : bool :=
  match v with
  | VDict _ => true
  | _ => false
  end.

(** An attachment whose type field starts with [image/]. *)
Definition image_typed (v : value) : bool :=
  match v with
  | VDict fi =>
      match Py.get_default fi "type" (VStr "") with
      | VStr t => String.prefix "image/" t
      | _ => false
      end
  | _ => false
  end.

(** The URL of an image attachment in the specification's words: the
    direct URL when it is truthy, else the thumbnail URL when that is
    truthy, else none; nothing for an entry that is not an image
    attachment. *)
Definition attachment_image (v : value) : option value :=
  match v with
  | VDict fi =>
      if image_typed v then
        if Py.truthy (Py.get fi "url") then Some (Py.get fi "url")
        else if Py.truthy (Py.get fi "thumbnailUrl")
             then Some (Py.get fi "thumbnailUrl")
             else None
      else None
  | _ => None
  end.

(** [self] with another session behind it. *)
Definition with_session (self : plugin)
    (get : string -> gmap string value -> http_outcome) : plugin :=
  {| api_key := api_key self;
     trigger_tag := trigger_tag self;
     session_get := get;
     name := name self;
     _extract_username := _extract_username self;
     _log_plugin_action := _log_plugin_action self;
     _validate_plugin_response := _validate_plugin_response self |}.

(** The response mapping [_create_response] builds before validation. *)
Definition response_of (self : plugin) (response_text : value)
    (content_key : string) : gmap string value :=
  <[content_key := response_text]>
    (<["plugin_name" := name self]> (<["handled" := VBool true]> ∅)).

(** What [_create_response] hands back: the mapping when the host accepts
    it, the empty mapping when the host rejects it or raises. *)
Definition delivered (self : plugin) (response_text : value)
    (content_key : string) : gmap string value :=
  match _validate_plugin_response self
          (response_of self response_text content_key) with
  | Ok valid =>
      if Py.truthy valid then response_of self response_text content_key
      else ∅
  | Raise _ => ∅
  end.

(** The event passes the filter with [image_url] and the host's helpers
    return: the handler goes on to the search. *)
Definition reaches_search (repr : value -> string) (self : plugin)
    (data : gmap string value) (action_desc : string) (image_url : value)
  : Prop :=
  (exists rest, _extract_images_from_note data = Ok (image_url :: rest)) /\
  _has_trigger_tag self data = Ok true /\
  exists username,
    _extract_username self data = Ok username /\
    _log_plugin_action self action_desc ("来自 @" +:+ Py.str repr username)
    = Ok tt.

(** [a or b] on the attachment's two URL fields. *)
Definition attachment_url (fi : gmap string value) : value :=
  Py.or (Py.get fi "url") (Py.get fi "thumbnailUrl").

(** The first entry of [files] whose type starts with [image/]. *)
Definition first_image_typed (fs : list value) : option (gmap string value) :=
  match List.find image_typed fs with
  | Some (VDict fi) => Some fi
  | _ => None
  end.

(** The sentence of the specification on the selected URL, read as it
    stands: an image-typed attachment and the tag in the text are enough
    for the handler to search the URL of the first image-typed
    attachment. *)
Definition searches_first_image_typed (repr : value -> string)
    (self : plugin) (data : gmap string value) (action_desc : string) : Prop :=
  forall note fs s fi,
    Py.get_default data "note" (VDict data) = VDict note ->
    Py.get_default note "files" (VList []) = VList fs ->
    Py.get_default note "text" (VStr "") = VStr s ->
    Py.contains (trigger_tag self) s = true ->
    first_image_typed fs = Some fi ->
    M.requests (_handle_image_search_event repr self data action_desc) =
    [(saucenao_api_url, search_params self (attachment_url fi))].

(** The sentence on the similarity line with the first-truthy reading: a
    similarity that is not truthy is shown as [0]. *)
Definition falsy_similarity_shows_zero (repr : value -> string) (data : value)
  : Prop :=
  forall d fr rest h,
    data = VDict d ->
    Py.get_default d "results" (VList []) = VList (VDict fr :: rest) ->
    Py.get_default fr "header" (VDict ∅) = VDict h ->
    Py.truthy (Py.get h "similarity") = false ->
    exists after,
      parse_results repr data = Ok (Some ("🔍 相似度: 0%" +:+ after)).

(** The sentence on the two entry points, read as it stands: whatever
    the event and whatever happens meanwhile, a value comes back. *)
Definition handlers_always_return (repr : value -> string) (self : plugin)
    (data : gmap string value) : Prop :=
  (exists r, M.outcome (on_mention repr self data) = Ok r) /\
  (exists r, M.outcome (on_message repr self data) = Ok r).

(** The sentence on entries that are not mappings, read as it stands: a
    files list that holds such entries is extracted without an exception,
    to the URLs of its well-formed image attachments. *)
Definition returns_well_formed_images (data : gmap string value) : Prop :=
  forall note fs,
    Py.get_default data "note" (VDict data) = VDict note ->
    Py.get_default note "files" (VList []) = VList fs ->
    existsb (fun v => negb (is_mapping v)) fs = true ->
    _extract_images_from_note data = Ok (omap attachment_image fs).

(** ** Sample data *)

Definition dict (items : list (string * value)) : value :=
  VDict (list_to_map items).

(** A stand-in for the interpreter's [repr]; the samples hold no float,
    list or dict where an f-string would print it. *)
Definition sample_repr (v : value) : string := "".

(** The response of the specification's end-to-end scenario. *)
Definition sample_body : value :=
  dict [("results",
         VList [dict [("header", dict [("similarity", VStr "87.5");
                                       ("index_name", VStr "H-Misc")]);
                      ("data", dict [("title", VStr "Foo");
                                     ("author", VStr "Bar");
                                     ("ext_urls", VList [VStr "http://src"])])]])].

Definition sample_text : string :=
  "🔍 相似度: 87.5%" +:+ Py.nl +:+ Py.nl +:+
  "📝 标题: Foo" +:+ Py.nl +:+
  "👤 作者: Bar" +:+ Py.nl +:+
  "🔗 来源: http://src" +:+ Py.nl +:+
  "📚 数据库: H-Misc".

(** A response whose similarity is the empty string. *)
Definition blank_similarity_body : value :=
  dict [("results",
         VList [dict [("header", dict [("similarity", VStr "")]);
                      ("data", dict [("title", VStr "Foo")])]])].

(** A response with no results. *)
Definition empty_results : gmap string value :=
  {["results" := VList []]}.

(** A plugin with the default tag and no API key, on a host whose helpers
    return, behind a session that answers every request with [answer]. *)
Definition sample_plugin (tag : string) (answer : http_outcome) : plugin :=
  {| api_key := VNone;
     trigger_tag := tag;
     session_get := fun _ _ => answer;
     name := VStr "Nao";
     _extract_username := fun _ => Ok (VStr "alice");
     _log_plugin_action := fun _ _ => Ok tt;
     _validate_plugin_response := fun _ => Ok (VBool true) |}.

(** The event of the end-to-end scenario. *)
Definition sample_files : list value :=
  [dict [("type", VStr "image/png"); ("url", VStr "http://x/a.png")]].

Definition sample_note : gmap string value :=
  list_to_map [("text", VStr "check this #nao"); ("files", VList sample_files)].

Definition sample_event : gmap string value :=
  {["note" := VDict sample_note]}.

(** An event whose files mix attachments with a str and [None]: the
    second attachment has a thumbnail only, the third is no image. *)
Definition mixed_files : list value :=
  [VStr "stray";
   dict [("type", VStr "image/png"); ("url", VStr "http://x/a.png");
         ("thumbnailUrl", VStr "http://x/a.thumb.png")];
   VNone;
   dict [("type", VStr "image/jpeg"); ("thumbnailUrl", VStr "http://x/b.jpg")];
   dict [("type", VStr "video/mp4"); ("url", VStr "http://x/c.mp4")]].

Definition mixed_note : gmap string value :=
  list_to_map [("text", VStr "#nao"); ("files", VList mixed_files)].

Definition mixed_event : gmap string value :=
  {["note" := VDict mixed_note]}.

(** An event whose only attachment is image-typed and has no URL. *)
Definition bare_image_note : gmap string value :=
  list_to_map [("text", VStr "#nao");
               ("files", VList [dict [("type", VStr "image/png")]])].

Definition bare_image_event : gmap string value :=
  {["note" := VDict bare_image_note]}.

(** An event whose files hold a str, [None], an image attachment, and a
    mapping whose type is [None]. *)
Definition ill_typed_files : list value :=
  [VStr "stray";
   VNone;
   dict [("type", VStr "image/png"); ("url", VStr "http://x/a.png")];
   dict [("type", VNone); ("url", VStr "http://x/b.png")]].

Definition ill_typed_note : gmap string value :=
  list_to_map [("text", VStr "#nao"); ("files", VList ill_typed_files)].

Definition ill_typed_event : gmap string value :=
  {["note" := VDict ill_typed_note]}.

(** ** The monad's equations *)

Lemma outcome_bind {A B : Type} (c : M.t A) (k : A -> M.t B) :
  M.outcome (M.bind c k) =
  match M.outcome c with
  | Ok a => M.outcome (k a)
  | Raise e => Raise e
  end.
Proof.
  destruct c as [tr [a|e]]; simpl; [|reflexivity].
  destruct (k a) as [tr' r]; reflexivity.
Qed.

Lemma outcome_try_except {A : Type} (body : M.t A) (handler : exn -> M.t A) :
  M.outcome (M.try_except body handler) =
  match M.outcome body with
  | Ok a => Ok a
  | Raise (Exception e) => M.outcome (handler e)
  | Raise (BaseException b) => Raise (BaseException b)
  end.
Proof.
  destruct body as [tr [a|[e|b]]]; simpl; [reflexivity| |reflexivity].
  destruct (handler e) as [tr' r]; reflexivity.
Qed.

Lemma requests_bind {A B : Type} (c : M.t A) (k : A -> M.t B) :
  M.requests (M.bind c k) =
  (M.requests c ++
   match M.outcome c with
   | Ok a => M.requests (k a)
   | Raise _ => []
   end)%list.
Proof.
  unfold M.requests, M.trace.
  destruct c as [tr [a|e]]; simpl.
  - destruct (k a) as [tr' r]; simpl. apply omap_app.
  - symmetry. apply app_nil_r.
Qed.

Lemma requests_try_except {A : Type} (body : M.t A) (handler : exn -> M.t A) :
  M.requests (M.try_except body handler) =
  (M.requests body ++
   match M.outcome body with
   | Raise (Exception e) => M.requests (handler e)
   | _ => []
   end)%list.
Proof.
  unfold M.requests, M.trace.
  destruct body as [tr [a|[e|b]]]; simpl.
  - symmetry. apply app_nil_r.
  - destruct (handler e) as [tr' r]; simpl. apply omap_app.
  - symmetry. apply app_nil_r.
Qed.

Lemma requests_lift {A : Type} (r : result A) : M.requests (M.lift r) = [].
Proof. reflexivity. Qed.

Lemma outcome_lift {A : Type} (r : result A) :
  M.outcome (M.lift r) =
  match r with
  | Ok a => Ok a
  | Raise e => Raise (Exception e)
  end.
Proof. reflexivity. Qed.

Lemma requests_interrupt {A : Type} (b : base_exn) :
  M.requests (M.interrupt (A := A) b) = [].
Proof. reflexivity. Qed.

Lemma outcome_interrupt {A : Type} (b : base_exn) :
  M.outcome (M.interrupt (A := A) b) = Raise (BaseException b).
Proof. reflexivity. Qed.

Lemma requests_ret {A : Type} (a : A) : M.requests (M.ret a) = [].
Proof. reflexivity. Qed.

Lemma outcome_ret {A : Type} (a : A) : M.outcome (M.ret a) = Ok a.
Proof. reflexivity. Qed.

Lemma requests_emit_get (url : string) (params : gmap string value) :
  M.requests (M.emit (Get url params)) = [(url, params)].
Proof. reflexivity. Qed.

Lemma requests_emit_log_error (message : string) :
  M.requests (M.emit (LogError message)) = [].
Proof. reflexivity. Qed.

Lemma requests_emit_log_exception (message : string) (e : exn) :
  M.requests (M.emit (LogException message e)) = [].
Proof. reflexivity. Qed.

Lemma outcome_emit (ev : event) : M.outcome (M.emit ev) = Ok tt.
Proof. reflexivity. Qed.

Create Rewrite HintDb nao_m.
#[export] Hint Rewrite @outcome_bind @outcome_try_except @requests_bind
  @requests_try_except @requests_lift @outcome_lift @requests_ret @outcome_ret
  requests_emit_get requests_emit_log_error requests_emit_log_exception
  outcome_emit @requests_interrupt @outcome_interrupt : nao_m.

(** Take a computation apart into its outcome and its requests. *)
Ltac m_simpl :=
  autorewrite with nao_m;
  cbn [Py.truthy Py.index0 negb length Nat.eqb fst snd].

(** ** Strings *)

Example truthy_unknown : Py.truthy (VStr "未知") = true.
Proof. reflexivity. Qed.

Example get_absent :
  Py.get (<["a" := VInt 1]> ∅) "b" = VNone.
Proof. vm_compute. reflexivity. Qed.

Example chars_mixed : Py.chars "a未b" = ["a"; "未"; "b"].
Proof. reflexivity. Qed.

Example contains_tag_nao : Py.contains "#nao" "check this #nao" = true.
Proof. reflexivity. Qed.

Example contains_case : Py.contains "#nao" "check this #NAO" = false.
Proof. reflexivity. Qed.

Lemma prefix_app (p s : string) :
  String.prefix p s = true <-> exists post, s = p +:+ post.
Proof.
  revert s. induction p as [|c p IH]; intros s.
  - split; [intros _; exists s; reflexivity | intros _; destruct s; reflexivity].
  - destruct s as [|c' s]; simpl.
    + split; [discriminate | intros [post H]; discriminate].
    + destruct (Ascii.ascii_dec c c') as [->|Hne].
      * rewrite IH. split; intros [post H]; exists post.
        -- simpl. now rewrite H.
        -- simpl in H. now inversion H.
      * split; [discriminate|]. intros [post H]. simpl in H.
        inversion H. congruence.
Qed.

(** [Py.contains] is the substring test: [sub] lies between some prefix
    and some suffix of [s]. *)
Lemma contains_substring (sub s : string) :
  Py.contains sub s = true <-> exists pre post, s = pre +:+ sub +:+ post.
Proof.
  induction s as [|c s IH]; cbn [Py.contains].
  - rewrite orb_false_r, prefix_app. split.
    + intros [post H]. exists EmptyString, post. exact H.
    + intros [[|c pre] [post H]]; [exists post; exact H | discriminate].
  - rewrite orb_true_iff, prefix_app, IH. split.
    + intros [[post H] | [pre [post H]]].
      * exists EmptyString, post. exact H.
      * exists (String c pre), post. simpl. now rewrite H.
    + intros [[|c' pre] [post H]].
      * left. exists post. exact H.
      * right. simpl in H. inversion H. exists pre, post. reflexivity.
Qed.

(** ** Image extraction *)

Lemma extract_file_typed (images : list value) (v : value) :
  typed_entry v = true ->
  extract_file images v = Ok (images ++ option_list (attachment_image v))%list.
Proof.
  intros Ht. destruct v as [| | | | |l|fi]; simpl; try (now rewrite app_nil_r).
  unfold typed_entry in Ht. unfold image_typed.
  destruct (Py.get_default fi "type" (VStr "")) as [| | | |t| |];
    try discriminate; simpl.
  destruct (String.prefix "image/" t); [|now rewrite app_nil_r].
  unfold Py.or.
  destruct (Py.truthy (Py.get fi "url")) eqn:Hu.
  - now rewrite Hu.
  - destruct (Py.truthy (Py.get fi "thumbnailUrl")); [reflexivity|].
    now rewrite app_nil_r.
Qed.

Lemma extract_file_not_mapping (images : list value) (v : value) :
  is_mapping v = false -> extract_file images v = Ok images.
Proof. destruct v; simpl; intros H; try reflexivity; discriminate. Qed.

Lemma for_each_extract_typed (fs images : list value) :
  forallb typed_entry fs = true ->
  Res.for_each extract_file fs images =
  Ok (images ++ omap attachment_image fs)%list.
Proof.
  revert images. induction fs as [|v fs IH]; intros images Ht; simpl.
  - now rewrite app_nil_r.
  - simpl in Ht. apply andb_true_iff in Ht as [Hv Hfs].
    rewrite (extract_file_typed _ _ Hv). simpl. rewrite (IH _ Hfs).
    destruct (attachment_image v); simpl.
    + now rewrite <- app_assoc.
    + now rewrite app_nil_r.
Qed.

Lemma for_each_extract_mappings (fs images : list value) :
  Res.for_each extract_file fs images =
  Res.for_each extract_file (List.filter is_mapping fs) images.
Proof.
  revert images. induction fs as [|v fs IH]; intros images; [reflexivity|].
  cbn [List.filter]. destruct (is_mapping v) eqn:Hm.
  - cbn [Res.for_each]. destruct (extract_file images v); simpl; [apply IH|reflexivity].
  - cbn [Res.for_each]. rewrite (extract_file_not_mapping _ _ Hm). simpl. apply IH.
Qed.

Lemma extract_images_files (data note : gmap string value) (fs : list value) :
  Py.get_default data "note" (VDict data) = VDict note ->
  Py.get_default note "files" (VList []) = VList fs ->
  _extract_images_from_note data = Res.for_each extract_file fs [].
Proof.
  intros Hn Hf. unfold _extract_images_from_note. rewrite Hn. simpl.
  rewrite Hf. reflexivity.
Qed.

Lemma has_trigger_tag_text (self : plugin) (data note : gmap string value)
    (s : string) :
  Py.get_default data "note" (VDict data) = VDict note ->
  Py.get_default note "text" (VStr "") = VStr s ->
  _has_trigger_tag self data = Ok (Py.contains (trigger_tag self) s).
Proof.
  intros Hn Ht. unfold _has_trigger_tag. rewrite Hn. simpl. rewrite Ht.
  unfold Py.or. destruct (Py.truthy (VStr s)) eqn:Hs; [reflexivity|].
  simpl in Hs. apply negb_false_iff, String.eqb_eq in Hs. subst s. reflexivity.
Qed.

(** ** The search client *)

Section Client.

Variable repr : value -> string.
Variable self : plugin.

Lemma parse_response_outcome (data : value) :
  M.outcome (_parse_saucenao_response repr data) =
  match parse_results repr data with
  | Ok r => Ok r
  | Raise _ => Ok None
  end.
Proof.
  unfold _parse_saucenao_response. m_simpl.
  destruct (parse_results repr data); m_simpl; reflexivity.
Qed.

Lemma parse_response_requests (data : value) :
  M.requests (_parse_saucenao_response repr data) = [].
Proof.
  unfold _parse_saucenao_response. m_simpl.
  destruct (parse_results repr data); m_simpl; reflexivity.
Qed.

(** What a search returns, by what the session answers. *)
Lemma search_outcome (image_url : value) :
  M.outcome (_search_image_by_url repr self image_url) =
  match session_get self saucenao_api_url (search_params self image_url) with
  | Failure _ => Ok None
  | Response status json =>
      if (status =? 200)%Z then
        match json with
        | Ok data =>
            match parse_results repr data with
            | Ok r => Ok r
            | Raise _ => Ok None
            end
        | Raise _ => Ok None
        end
      else Ok None
  | Interrupted b => Raise (BaseException b)
  end.
Proof.
  unfold _search_image_by_url, session_request. m_simpl.
  destruct (session_get self saucenao_api_url (search_params self image_url))
    as [e|status json|b]; m_simpl; [reflexivity| |reflexivity].
  destruct (status =? 200)%Z; m_simpl; [|reflexivity].
  destruct json as [data|e]; m_simpl; [|reflexivity].
  rewrite parse_response_outcome.
  destruct (parse_results repr data); reflexivity.
Qed.

(** A search sends one request, to the fixed endpoint. *)
Lemma search_requests (image_url : value) :
  M.requests (_search_image_by_url repr self image_url) =
  [(saucenao_api_url, search_params self image_url)].
Proof.
  unfold _search_image_by_url, session_request. m_simpl.
  destruct (session_get self saucenao_api_url (search_params self image_url))
    as [e|status json|b]; m_simpl; [reflexivity| |reflexivity].
  destruct (status =? 200)%Z; m_simpl; [|reflexivity].
  destruct json as [data|e]; m_simpl; [|reflexivity].
  rewrite parse_response_requests, parse_response_outcome.
  destruct (parse_results repr data); reflexivity.
Qed.

Lemma create_response_outcome (response_text : value) (content_key : string) :
  M.outcome (_create_response self response_text content_key) =
  Ok (delivered self response_text content_key).
Proof.
  unfold _create_response, delivered, response_of. m_simpl.
  destruct (_validate_plugin_response self _); m_simpl; reflexivity.
Qed.

Lemma create_response_requests (response_text : value) (content_key : string) :
  M.requests (_create_response self response_text content_key) = [].
Proof.
  unfold _create_response. m_simpl.
  destruct (_validate_plugin_response self _); m_simpl; reflexivity.
Qed.

End Client.

(** ** The handler *)

Section Handler.

Variable repr : value -> string.
Variable self : plugin.

Lemma handle_reaching_outcome (data : gmap string value)
    (action_desc : string) (image_url : value) :
  reaches_search repr self data action_desc image_url ->
  M.outcome (_handle_image_search_event repr self data action_desc) =
  match M.outcome (_search_image_by_url repr self image_url) with
  | Ok search_result =>
      Ok (Some (delivered self (result_or_nothing_found search_result)
                  "response"))
  | Raise (Exception _) => Ok None
  | Raise (BaseException b) => Raise (BaseException b)
  end.
Proof.
  intros ([rest Hi] & Ht & username & Hu & Hl).
  unfold _handle_image_search_event. m_simpl. rewrite Hi. m_simpl.
  rewrite Ht. m_simpl. rewrite Hu. m_simpl. rewrite Hl. m_simpl.
  destruct (M.outcome (_search_image_by_url repr self image_url))
    as [sr|[e|b]]; m_simpl; try reflexivity.
  rewrite create_response_outcome. reflexivity.
Qed.

Lemma handle_reaching_requests (data : gmap string value)
    (action_desc : string) (image_url : value) :
  reaches_search repr self data action_desc image_url ->
  M.requests (_handle_image_search_event repr self data action_desc) =
  [(saucenao_api_url, search_params self image_url)].
Proof.
  intros ([rest Hi] & Ht & username & Hu & Hl).
  unfold _handle_image_search_event. m_simpl. rewrite Hi. m_simpl.
  rewrite Ht. m_simpl. rewrite Hu. m_simpl. rewrite Hl. m_simpl.
  rewrite search_requests, search_outcome.
  destruct (session_get self saucenao_api_url (search_params self image_url))
    as [e|status [body|e]|b]; try destruct (status =? 200)%Z;
    try destruct (parse_results repr body);
    m_simpl; rewrite ?create_response_requests, ?create_response_outcome;
    m_simpl; reflexivity.
Qed.

(** The filter turns the event away: extraction gave no image or raised,
    or the trigger check did not return [True]. *)
Lemma handle_filtered_out (data : gmap string value) (action_desc : string) :
  (forall image_url rest,
      _extract_images_from_note data <> Ok (image_url :: rest)) \/
  _has_trigger_tag self data <> Ok true ->
  M.outcome (_handle_image_search_event repr self data action_desc) = Ok None /\
  M.requests (_handle_image_search_event repr self data action_desc) = [].
Proof.
  unfold _handle_image_search_event. intros H. m_simpl.
  destruct (_extract_images_from_note data) as [[|u rest]|e]; m_simpl;
    try (split; reflexivity).
  destruct (_has_trigger_tag self data) as [[|]|e]; m_simpl;
    try (split; reflexivity).
  destruct H as [H|H]; [destruct (H u rest) | destruct H]; reflexivity.
Qed.

(** What leaves the handler: a value, or the [BaseException] that
    interrupted the search it had sent. *)
Lemma handle_outcome_cases (data : gmap string value) (action_desc : string) :
  (exists r,
      M.outcome (_handle_image_search_event repr self data action_desc)
      = Ok r) \/
  (exists b image_url,
      M.outcome (_handle_image_search_event repr self data action_desc)
      = Raise (BaseException b) /\
      session_get self saucenao_api_url (search_params self image_url)
      = Interrupted b /\
      M.requests (_handle_image_search_event repr self data action_desc) =
      [(saucenao_api_url, search_params self image_url)]).
Proof.
  destruct (_extract_images_from_note data) as [[|image_url rest]|e] eqn:Hi.
  1,3: left; unfold _handle_image_search_event; m_simpl; rewrite Hi; m_simpl;
    eauto.
  destruct (_has_trigger_tag self data) as [[|]|e] eqn:Ht.
  2,3: left; unfold _handle_image_search_event; m_simpl; rewrite Hi; m_simpl;
    rewrite Ht; m_simpl; eauto.
  destruct (_extract_username self data) as [username|e] eqn:Hu.
  2: left; unfold _handle_image_search_event; m_simpl; rewrite Hi; m_simpl;
    rewrite Ht; m_simpl; rewrite Hu; m_simpl; eauto.
  destruct (_log_plugin_action self action_desc
              ("来自 @" +:+ Py.str repr username)) as [[]|e] eqn:Hl.
  2: left; unfold _handle_image_search_event; m_simpl; rewrite Hi; m_simpl;
    rewrite Ht; m_simpl; rewrite Hu; m_simpl; rewrite Hl; m_simpl; eauto.
  assert (reaches_search repr self data action_desc image_url) as Hreach
    by (split; [eauto|]; split; [exact Ht|eauto]).
  rewrite (handle_reaching_outcome _ _ _ Hreach),
    (handle_reaching_requests _ _ _ Hreach), search_outcome.
  destruct (session_get self saucenao_api_url (search_params self image_url))
    as [e|status [body|e]|b] eqn:Hs; try destruct (status =? 200)%Z;
    try destruct (parse_results repr body); eauto.
  right. exists b, image_url. eauto.
Qed.

End Handler.

(** ** The event filter *)

Lemma attachment_image_url (fi : gmap string value) :
  image_typed (VDict fi) = true ->
  Py.truthy (attachment_url fi) = true ->
  attachment_image (VDict fi) = Some (attachment_url fi).
Proof.
  intros Hi Hu. unfold attachment_image. rewrite Hi.
  unfold attachment_url, Py.or in *.
  destruct (Py.truthy (Py.get fi "url")); [reflexivity|]. now rewrite Hu.
Qed.

Lemma omap_attachment_image_cons (v : value) (fs : list value) :
  omap attachment_image (v :: fs) =
  option_list (attachment_image v) ++ omap attachment_image fs.
Proof.
  change (omap attachment_image (v :: fs)) with
    (match attachment_image v with
     | Some u => u :: omap attachment_image fs
     | None => omap attachment_image fs
     end).
  destruct (attachment_image v); reflexivity.
Qed.

Lemma omap_attachment_image_first (pre post : list value) (v : value) :
  Forall (fun w => attachment_image w = None) pre ->
  omap attachment_image (pre ++ v :: post) =
  omap attachment_image (v :: post).
Proof.
  induction 1 as [|w pre Hw _ IH]; [reflexivity|].
  rewrite <- app_comm_cons, omap_attachment_image_cons, Hw. exact IH.
Qed.

(** C10, as amended: when every mapping entry of [files] has a str (or
    no) type, the entries that are not mappings are skipped without an
    exception.  Extraction over [files] does what extraction over its
    mapping entries alone does, and it returns, in list order, the URLs of
    the image-typed entries that have one. *)
Theorem non_mapping_entries_skipped (data note : gmap string value)
    (fs : list value) :
  Py.get_default data "note" (VDict data) = VDict note ->
  Py.get_default note "files" (VList []) = VList fs ->
  forallb typed_entry fs = true ->
  _extract_images_from_note data =
    Res.for_each extract_file (List.filter is_mapping fs) [] /\
  _extract_images_from_note data = Ok (omap attachment_image fs) /\
  omap attachment_image fs = omap attachment_image (List.filter is_mapping fs).
Proof.
  intros Hn Hf Ht. rewrite (extract_images_files _ _ _ Hn Hf).
  split; [apply for_each_extract_mappings|].
  split; [now rewrite (for_each_extract_typed _ _ Ht)|].
  clear. induction fs as [|v fs IH]; [reflexivity|].
  cbn [List.filter]. rewrite omap_attachment_image_cons.
  destruct (is_mapping v) eqn:Hm.
  - rewrite omap_attachment_image_cons. now rewrite IH.
  - destruct v; try discriminate; exact IH.
Qed.

Lemma non_mapping_entries_skipped_witness :
  _extract_images_from_note mixed_event =
    Ok [VStr "http://x/a.png"; VStr "http://x/b.jpg"].
Proof.
  destruct (non_mapping_entries_skipped mixed_event mixed_note mixed_files)
    as (_ & H & _); [reflexivity | reflexivity | reflexivity |].
  rewrite H. reflexivity.
Defined.

(** C10 as it stands fails: beside a str, [None] and a good image
    attachment, one mapping whose type is [None] makes the extraction
    raise, and no URL is returned. *)
Lemma ill_typed_entry_not_skipped : ~ returns_well_formed_images ill_typed_event.
Proof.
  intros H.
  specialize (H ill_typed_note ill_typed_files eq_refl eq_refl eq_refl).
  vm_compute in H. discriminate H.
Qed.

(** C1, as amended: when the note is a mapping whose files are a list in
    which every mapping entry has a str (or no) type, the text is a str
    that contains the trigger tag, and the host's helpers return, the
    handler sends one search, for the URL of the first image-typed
    attachment that has a truthy [url] or [thumbnailUrl]; that URL is
    [url] when [url] is truthy and [thumbnailUrl] otherwise. *)
Theorem first_image_url_searched (repr : value -> string) (self : plugin)
    (data note fi : gmap string value) (pre post : list value)
    (s action_desc : string) (username : value) :
  Py.get_default data "note" (VDict data) = VDict note ->
  Py.get_default note "files" (VList []) = VList (pre ++ VDict fi :: post) ->
  forallb typed_entry (pre ++ VDict fi :: post) = true ->
  Forall (fun v => attachment_image v = None) pre ->
  image_typed (VDict fi) = true ->
  Py.truthy (attachment_url fi) = true ->
  Py.get_default note "text" (VStr "") = VStr s ->
  Py.contains (trigger_tag self) s = true ->
  _extract_username self data = Ok username ->
  _log_plugin_action self action_desc ("来自 @" +:+ Py.str repr username)
  = Ok tt ->
  M.requests (_handle_image_search_event repr self data action_desc) =
    [(saucenao_api_url, search_params self (attachment_url fi))] /\
  search_params self (attachment_url fi) !! "url" = Some (attachment_url fi) /\
  attachment_url fi =
    if Py.truthy (Py.get fi "url") then Py.get fi "url"
    else Py.get fi "thumbnailUrl".
Proof.
  intros Hn Hf Ht Hpre Hi Hu Hs Hc Hname Hlog.
  split; [|split; [|reflexivity]].
  - apply handle_reaching_requests. split; [|split].
    + rewrite (extract_images_files _ _ _ Hn Hf).
      rewrite (for_each_extract_typed _ _ Ht), app_nil_l.
      rewrite (omap_attachment_image_first _ _ _ Hpre).
      rewrite omap_attachment_image_cons, (attachment_image_url _ Hi Hu).
      eauto.
    + rewrite (has_trigger_tag_text _ _ _ _ Hn Hs), Hc. reflexivity.
    + eauto.
  - unfold search_params.
    destruct (negb (Py.truthy (api_key self)));
      [rewrite lookup_delete_ne by discriminate|];
      rewrite lookup_insert_ne, lookup_insert_ne, lookup_insert_eq
        by discriminate; reflexivity.
Qed.

Lemma first_image_url_searched_witness :
  M.requests
    (_handle_image_search_event sample_repr
       (sample_plugin "#nao" (Response 200 (Ok sample_body)))
       mixed_event "处理 Nao 图片识别请求") =
  [(saucenao_api_url,
    search_params (sample_plugin "#nao" (Response 200 (Ok sample_body)))
      (VStr "http://x/a.png"))].
Proof.
  refine (proj1
    (first_image_url_searched sample_repr
       (sample_plugin "#nao" (Response 200 (Ok sample_body)))
       mixed_event mixed_note
       (list_to_map [("type", VStr "image/png");
                     ("url", VStr "http://x/a.png");
                     ("thumbnailUrl", VStr "http://x/a.thumb.png")])
       [VStr "stray"]
       [VNone;
        dict [("type", VStr "image/jpeg");
              ("thumbnailUrl", VStr "http://x/b.jpg")];
        dict [("type", VStr "video/mp4"); ("url", VStr "http://x/c.mp4")]]
       "#nao" "处理 Nao 图片识别请求" (VStr "alice")
       _ _ _ _ _ _ _ _ _ _)); try reflexivity.
  repeat constructor.
Defined.

(** C1 as it stands fails: an image-typed attachment with neither URL,
    under a text that holds the tag, and the handler sends no search. *)
Lemma first_image_typed_not_searched :
  ~ searches_first_image_typed sample_repr
      (sample_plugin "#nao" (Response 200 (Ok sample_body)))
      bare_image_event "处理 Nao 图片识别请求".
Proof.
  intros H.
  specialize (H bare_image_note
                [dict [("type", VStr "image/png")]] "#nao"
                (list_to_map [("type", VStr "image/png")])
                eq_refl eq_refl eq_refl eq_refl eq_refl).
  vm_compute in H. discriminate H.
Qed.

(** C2: an event from which extraction yields no image URL, or whose
    trigger check does not hold, makes the handler return [None], and the
    session is never asked. *)
Theorem filtered_event_no_search (repr : value -> string) (self : plugin)
    (data : gmap string value) (action_desc : string) :
  (forall image_url rest,
      _extract_images_from_note data <> Ok (image_url :: rest)) \/
  _has_trigger_tag self data <> Ok true ->
  M.outcome (_handle_image_search_event repr self data action_desc) = Ok None /\
  M.requests (_handle_image_search_event repr self data action_desc) = [].
Proof. apply handle_filtered_out. Qed.

Lemma filtered_event_no_search_witness :
  M.outcome
    (_handle_image_search_event sample_repr
       (sample_plugin "#other" (Response 200 (Ok sample_body)))
       sample_event "处理 Nao 图片识别请求") = Ok None /\
  M.requests
    (_handle_image_search_event sample_repr
       (sample_plugin "#other" (Response 200 (Ok sample_body)))
       sample_event "处理 Nao 图片识别请求") = [].
Proof.
  apply (filtered_event_no_search sample_repr
           (sample_plugin "#other" (Response 200 (Ok sample_body)))
           sample_event "处理 Nao 图片识别请求").
  right. vm_compute. discriminate.
Defined.

(** ** The search client *)

(** C3: the parameters of every search are [output_type=2], the image URL,
    [numres=3] and [db=999], with [api_key] exactly when an API key is
    configured; without a key the parameter is absent, not empty.  The one
    request of a search carries these parameters to the fixed endpoint. *)
Theorem search_params_sent (repr : value -> string) (self : plugin)
    (image_url : value) :
  let params := search_params self image_url in
  params !! "output_type" = Some (VStr "2") /\
  params !! "url" = Some image_url /\
  params !! "numres" = Some (VStr "3") /\
  params !! "db" = Some (VStr "999") /\
  params !! "api_key" =
    (if Py.truthy (api_key self) then Some (api_key self) else None) /\
  dom params =
    (if Py.truthy (api_key self)
     then {["output_type"; "api_key"; "url"; "numres"; "db"]}
     else {["output_type"; "url"; "numres"; "db"]}) /\
  M.requests (_search_image_by_url repr self image_url) =
    [(saucenao_api_url, params)].
Proof.
  cbv zeta. rewrite search_requests. unfold search_params.
  destruct (Py.truthy (api_key self)); cbn [negb];
    repeat split;
    rewrite ?dom_delete_L, ?dom_insert_L, ?dom_empty_L;
    try (simplify_map_eq; reflexivity);
    set_solver.
Qed.

(** ** The response formatter *)

Lemma append_assoc (a b c : string) : (a +:+ b) +:+ c = a +:+ b +:+ c.
Proof.
  induction a as [|x a IH]; [reflexivity|].
  change (String x ((a +:+ b) +:+ c) = String x (a +:+ b +:+ c)). congruence.
Qed.

Lemma append_empty_r (a : string) : a +:+ "" = a.
Proof.
  induction a as [|x a IH]; [reflexivity|].
  change (String x (a +:+ "") = String x a). congruence.
Qed.

(** The text block, line by line. *)
Lemma format_result_lines (repr : value -> string)
    (similarity title author source_url index_name : value) :
  format_result repr similarity title author source_url index_name =
  ("🔍 相似度: " +:+ Py.str repr similarity +:+ "%" +:+ Py.nl +:+ Py.nl) +:+
  ("📝 标题: " +:+ Py.str repr title +:+ Py.nl) +:+
  ("👤 作者: " +:+ Py.str repr author +:+ Py.nl) +:+
  (if Py.truthy source_url
   then "🔗 来源: " +:+ Py.str repr source_url +:+ Py.nl else "") +:+
  (if Py.truthy index_name
   then "📚 数据库: " +:+ Py.str repr index_name else "").
Proof.
  unfold format_result.
  destruct (Py.truthy source_url), (Py.truthy index_name);
    rewrite ?append_assoc, ?append_empty_r; reflexivity.
Qed.

(** The formatter on a response whose first result is a mapping with a
    mapping for header and for data. *)
Lemma parse_results_first (repr : value -> string)
    (d fr h rd : gmap string value) (rest : list value) :
  Py.get_default d "results" (VList []) = VList (VDict fr :: rest) ->
  Py.get_default fr "header" (VDict ∅) = VDict h ->
  Py.get_default fr "data" (VDict ∅) = VDict rd ->
  parse_results repr (VDict d) =
  match source_url_of rd with
  | Ok source_url =>
      Ok (Some (format_result repr (similarity_of h) (title_of rd)
                  (author_of rd) source_url (index_name_of h)))
  | Raise e => Raise e
  end.
Proof.
  intros Hr Hh Hd. unfold parse_results. cbn [Py.as_dict Res.bind].
  rewrite Hr. cbn [Py.truthy length Nat.eqb negb Py.index0 Py.as_dict Res.bind].
  rewrite Hh, Hd. cbn [Py.as_dict Res.bind].
  destruct (source_url_of rd); reflexivity.
Qed.

(** Whenever the formatter returns a text, the response had that shape. *)
Lemma parse_results_text (repr : value -> string) (data : value)
    (text : string) :
  parse_results repr data = Ok (Some text) ->
  exists d fr rest h rd source_url,
    data = VDict d /\
    Py.get_default d "results" (VList []) = VList (VDict fr :: rest) /\
    Py.get_default fr "header" (VDict ∅) = VDict h /\
    Py.get_default fr "data" (VDict ∅) = VDict rd /\
    source_url_of rd = Ok source_url /\
    text = format_result repr (similarity_of h) (title_of rd) (author_of rd)
             source_url (index_name_of h).
Proof.
  unfold parse_results. intros H.
  destruct data as [| | | | | |d]; try discriminate H.
  cbn [Py.as_dict Res.bind] in H.
  destruct (Py.get_default d "results" (VList [])) as [| | | |s|l|m] eqn:Hr;
    match type of H with
    | context [if ?c then _ else _] => destruct c; [discriminate H|]
    end;
    cbn [Py.index0 Res.bind] in H; try discriminate H.
  - destruct (Py.chars s); discriminate H.
  - destruct l as [|first rest]; [discriminate H|].
    cbn [Res.bind] in H.
    destruct first as [| | | | | |fr]; try discriminate H.
    cbn [Py.as_dict Res.bind] in H.
    destruct (Py.get_default fr "header" (VDict ∅)) as [| | | | | |h] eqn:Hh;
      try discriminate H.
    cbn [Py.as_dict Res.bind] in H.
    destruct (Py.get_default fr "data" (VDict ∅)) as [| | | | | |rd] eqn:Hd;
      try discriminate H.
    cbn [Py.as_dict Res.bind] in H.
    destruct (source_url_of rd) as [source_url|e] eqn:Hs; [|discriminate H].
    cbn [Res.bind] in H. inversion H.
    exists d, fr, rest, h, rd, source_url. repeat split; assumption.
Qed.

Lemma parse_results_empty (repr : value -> string) (d : gmap string value) :
  d !! "results" = None \/ d !! "results" = Some (VList []) ->
  parse_results repr (VDict d) = Ok None.
Proof.
  intros H. unfold parse_results, Py.get_default. cbn [Py.as_dict Res.bind].
  destruct H as [-> | ->]; reflexivity.
Qed.

Lemma response_of_text (self : plugin) (response_text : value) :
  response_of self response_text "response" !! "response" = Some response_text.
Proof. unfold response_of. apply lookup_insert_eq. Qed.

(** What the handler returns once the search has found nothing. *)
Lemma handle_nothing_found (repr : value -> string) (self : plugin)
    (data : gmap string value) (action_desc : string) (image_url : value) :
  reaches_search repr self data action_desc image_url ->
  M.outcome (_search_image_by_url repr self image_url) = Ok None ->
  M.outcome (_handle_image_search_event repr self data action_desc) =
  Ok (Some (delivered self (VStr nothing_found) "response")).
Proof.
  intros Hreach Hsearch.
  rewrite (handle_reaching_outcome _ _ _ _ _ Hreach), Hsearch.
  reflexivity.
Qed.

(** C4: a response body without [results], or with an empty list there,
    makes the formatter return [None] (and log nothing); the handler then
    answers with the fixed nothing-found message as its response text. *)
Theorem empty_results_nothing_found (repr : value -> string) (self : plugin)
    (d : gmap string value) :
  d !! "results" = None \/ d !! "results" = Some (VList []) ->
  _parse_saucenao_response repr (VDict d) = M.ret None /\
  result_or_nothing_found None = VStr nothing_found /\
  forall data action_desc image_url,
    reaches_search repr self data action_desc image_url ->
    session_get self saucenao_api_url (search_params self image_url)
    = Response 200 (Ok (VDict d)) ->
    M.outcome (_handle_image_search_event repr self data action_desc) =
    Ok (Some (delivered self (VStr nothing_found) "response")).
Proof.
  intros H. pose proof (parse_results_empty repr d H) as Hp.
  split; [|split; [reflexivity|]].
  - unfold _parse_saucenao_response. rewrite Hp. reflexivity.
  - intros data action_desc image_url Hreach Hget.
    apply (handle_nothing_found _ _ _ _ image_url Hreach).
    rewrite search_outcome, Hget, Hp. reflexivity.
Qed.

Lemma empty_results_nothing_found_witness :
  M.outcome
    (_handle_image_search_event sample_repr
       (sample_plugin "#nao" (Response 200 (Ok (VDict empty_results))))
       sample_event "处理 Nao 图片识别请求") =
  Ok (Some (list_to_map [("handled", VBool true);
                         ("plugin_name", VStr "Nao");
                         ("response", VStr nothing_found)])).
Proof.
  destruct (empty_results_nothing_found sample_repr
              (sample_plugin "#nao" (Response 200 (Ok (VDict empty_results))))
              empty_results) as (_ & _ & H); [right; reflexivity|].
  rewrite (H sample_event "处理 Nao 图片识别请求" (VStr "http://x/a.png")).
  - vm_compute. reflexivity.
  - split; [exists []; reflexivity|].
    split; [reflexivity|]. exists (VStr "alice"). split; reflexivity.
  - reflexivity.
Defined.

(** C5: on a status other than 200 the search returns [None] and does not
    raise; the handler's answer is then the same fixed nothing-found
    message, and the same value, as behind a session that answers 200 with
    an empty result list. *)
Theorem non_200_nothing_found (repr : value -> string) (self : plugin)
    (image_url : value) (status : Z) (json : result value) :
  session_get self saucenao_api_url (search_params self image_url)
  = Response status json ->
  status <> 200%Z ->
  M.outcome (_search_image_by_url repr self image_url) = Ok None /\
  forall data action_desc,
    reaches_search repr self data action_desc image_url ->
    M.outcome (_handle_image_search_event repr self data action_desc) =
    Ok (Some (delivered self (VStr nothing_found) "response")) /\
    M.outcome (_handle_image_search_event repr self data action_desc) =
    M.outcome (_handle_image_search_event repr
                 (with_session self
                    (fun _ _ => Response 200 (Ok (VDict empty_results))))
                 data action_desc).
Proof.
  intros Hget Hstatus.
  assert (M.outcome (_search_image_by_url repr self image_url) = Ok None) as Hs.
  { rewrite search_outcome, Hget.
    destruct (Z.eqb_spec status 200); [contradiction | reflexivity]. }
  split; [exact Hs|]. intros data action_desc Hreach.
  rewrite (handle_nothing_found _ _ _ _ image_url Hreach Hs).
  split; [reflexivity|]. symmetry.
  apply (handle_nothing_found repr
           (with_session self
              (fun _ _ => Response 200 (Ok (VDict empty_results))))
           data action_desc image_url Hreach).
  rewrite search_outcome. cbn [with_session session_get].
  rewrite Z.eqb_refl, parse_results_empty; [reflexivity|].
  right. reflexivity.
Qed.

Lemma non_200_nothing_found_witness :
  M.outcome
    (_handle_image_search_event sample_repr
       (sample_plugin "#nao" (Response 503 (Raise ClientError)))
       sample_event "处理 Nao 图片识别请求") =
  Ok (Some (list_to_map [("handled", VBool true);
                         ("plugin_name", VStr "Nao");
                         ("response", VStr nothing_found)])).
Proof.
  destruct (non_200_nothing_found sample_repr
              (sample_plugin "#nao" (Response 503 (Raise ClientError)))
              (VStr "http://x/a.png") 503 (Raise ClientError))
    as [_ H]; [reflexivity | discriminate |].
  destruct (H sample_event "处理 Nao 图片识别请求") as [H1 _].
  - split; [exists []; reflexivity|].
    split; [reflexivity|]. exists (VStr "alice"). split; reflexivity.
  - rewrite H1. vm_compute. reflexivity.
Defined.

(** The title is the first truthy one of the four fields, in the order
    of the source, and the default when none is. *)
Lemma title_of_first_truthy (rd : gmap string value) :
  title_of rd =
  default (VStr "未知")
    (List.find Py.truthy
       [Py.get rd "title"; Py.get rd "jp_name"; Py.get rd "eng_name";
        Py.get rd "source"]).
Proof.
  unfold title_of, Py.or. cbn [List.find].
  destruct (Py.truthy (Py.get rd "title")) eqn:H1; rewrite ?H1; [reflexivity|].
  destruct (Py.truthy (Py.get rd "jp_name")) eqn:H2; rewrite ?H2; [reflexivity|].
  destruct (Py.truthy (Py.get rd "eng_name")) eqn:H3; rewrite ?H3; [reflexivity|].
  destruct (Py.truthy (Py.get rd "source")) eqn:H4; reflexivity.
Qed.

(** C6: in the text formatted from the first result, the title line shows
    the first truthy one of [title], [jp_name], [eng_name], [source] of the
    data mapping, in that order, and [未知] when none of them is truthy. *)
Theorem title_fallback (repr : value -> string)
    (d fr h rd : gmap string value) (rest : list value) (source_url : value) :
  Py.get_default d "results" (VList []) = VList (VDict fr :: rest) ->
  Py.get_default fr "header" (VDict ∅) = VDict h ->
  Py.get_default fr "data" (VDict ∅) = VDict rd ->
  source_url_of rd = Ok source_url ->
  let title :=
    default (VStr "未知")
      (List.find Py.truthy
         [Py.get rd "title"; Py.get rd "jp_name"; Py.get rd "eng_name";
          Py.get rd "source"]) in
  (exists before after,
      parse_results repr (VDict d) =
      Ok (Some (before +:+ "📝 标题: " +:+ Py.str repr title +:+ Py.nl
                +:+ after))) /\
  (Py.truthy (Py.get rd "title") = false ->
   Py.truthy (Py.get rd "jp_name") = false ->
   Py.truthy (Py.get rd "eng_name") = false ->
   Py.truthy (Py.get rd "source") = false ->
   title = VStr "未知").
Proof.
  intros Hr Hh Hd Hs title. split.
  - rewrite (parse_results_first _ _ _ _ _ _ Hr Hh Hd), Hs.
    rewrite format_result_lines, title_of_first_truthy. fold title.
    exists ("🔍 相似度: " +:+ Py.str repr (similarity_of h) +:+ "%"
            +:+ Py.nl +:+ Py.nl),
      (("👤 作者: " +:+ Py.str repr (author_of rd) +:+ Py.nl) +:+
       (if Py.truthy source_url
        then "🔗 来源: " +:+ Py.str repr source_url +:+ Py.nl else "") +:+
       (if Py.truthy (index_name_of h)
        then "📚 数据库: " +:+ Py.str repr (index_name_of h) else "")).
    rewrite !append_assoc. reflexivity.
  - intros H1 H2 H3 H4. unfold title. cbn [List.find].
    rewrite H1, H2, H3, H4. reflexivity.
Qed.

Lemma title_fallback_witness :
  exists before after,
    parse_results sample_repr
      (dict [("results",
              VList [dict [("data", dict [("title", VStr "");
                                          ("eng_name", VStr "Foo");
                                          ("source", VStr "Baz")])]])]) =
    Ok (Some (before +:+ "📝 标题: Foo" +:+ Py.nl +:+ after)).
Proof.
  refine (proj1
    (title_fallback sample_repr
       (list_to_map
          [("results",
            VList [dict [("data", dict [("title", VStr "");
                                        ("eng_name", VStr "Foo");
                                        ("source", VStr "Baz")])]])])
       (list_to_map [("data", dict [("title", VStr "");
                                    ("eng_name", VStr "Foo");
                                    ("source", VStr "Baz")])])
       ∅
       (list_to_map [("title", VStr ""); ("eng_name", VStr "Foo");
                     ("source", VStr "Baz")])
       [] (VStr "") _ _ _ _)); reflexivity.
Defined.

Example title_unknown :
  parse_results sample_repr
    (dict [("results", VList [dict [("data", dict [("title", VNone)])]])]) =
  Ok (Some ("🔍 相似度: 0%" +:+ Py.nl +:+ Py.nl +:+
            "📝 标题: 未知" +:+ Py.nl +:+
            "👤 作者: 未知" +:+ Py.nl)).
Proof. vm_compute. reflexivity. Qed.

(** C7 as it stands fails: a similarity that is the empty string is put
    into the line as it is, and the line reads [%], not [0%]. *)
Lemma blank_similarity_not_zero :
  ~ falsy_similarity_shows_zero sample_repr blank_similarity_body.
Proof.
  intros H.
  destruct (H (list_to_map
                 [("results",
                   VList [dict [("header", dict [("similarity", VStr "")]);
                                ("data", dict [("title", VStr "Foo")])]])])
              (list_to_map [("header", dict [("similarity", VStr "")]);
                            ("data", dict [("title", VStr "Foo")])])
              []
              (list_to_map [("similarity", VStr "")])
              eq_refl eq_refl eq_refl eq_refl) as [after Ha].
  vm_compute in Ha. discriminate Ha.
Qed.

(** C7, as amended: when the header of the first result has no
    [similarity] key the similarity line shows [0]; when the key is there
    its value is shown as it is, be it [None] or the empty string. *)
Theorem absent_similarity_shows_zero (repr : value -> string)
    (d fr h rd : gmap string value) (rest : list value) (source_url : value) :
  Py.get_default d "results" (VList []) = VList (VDict fr :: rest) ->
  Py.get_default fr "header" (VDict ∅) = VDict h ->
  Py.get_default fr "data" (VDict ∅) = VDict rd ->
  source_url_of rd = Ok source_url ->
  exists after,
    parse_results repr (VDict d) =
    Ok (Some ("🔍 相似度: " +:+
              match h !! "similarity" with
              | None => "0"
              | Some similarity => Py.str repr similarity
              end +:+ "%" +:+ Py.nl +:+ Py.nl +:+ after)).
Proof.
  intros Hr Hh Hd Hs.
  rewrite (parse_results_first _ _ _ _ _ _ Hr Hh Hd), Hs.
  rewrite format_result_lines. unfold similarity_of, Py.get_default.
  exists (("📝 标题: " +:+ Py.str repr (title_of rd) +:+ Py.nl) +:+
          ("👤 作者: " +:+ Py.str repr (author_of rd) +:+ Py.nl) +:+
          (if Py.truthy source_url
           then "🔗 来源: " +:+ Py.str repr source_url +:+ Py.nl else "") +:+
          (if Py.truthy (index_name_of h)
           then "📚 数据库: " +:+ Py.str repr (index_name_of h) else "")).
  rewrite !append_assoc.
  destruct (h !! "similarity"); reflexivity.
Qed.

Lemma absent_similarity_shows_zero_witness :
  exists after,
    parse_results sample_repr
      (dict [("results", VList [dict [("data", dict [("title", VStr "Foo")])]])])
    = Ok (Some ("🔍 相似度: 0%" +:+ Py.nl +:+ Py.nl +:+ after)).
Proof.
  exact (absent_similarity_shows_zero sample_repr
           (list_to_map
              [("results",
                VList [dict [("data", dict [("title", VStr "Foo")])]])])
           (list_to_map [("data", dict [("title", VStr "Foo")])])
           ∅
           (list_to_map [("title", VStr "Foo")])
           [] (VStr "") eq_refl eq_refl eq_refl eq_refl).
Defined.

Example none_similarity_shown :
  parse_results sample_repr
    (dict [("results", VList [dict [("header", dict [("similarity", VNone)])]])])
  = Ok (Some ("🔍 相似度: None%" +:+ Py.nl +:+ Py.nl +:+
              "📝 标题: 未知" +:+ Py.nl +:+
              "👤 作者: 未知" +:+ Py.nl)).
Proof. vm_compute. reflexivity. Qed.

(** C8: a formatted text is always the similarity line and a blank line,
    the title line, the author line, then the source line when the source
    link is truthy and the database line when the label is truthy, in that
    order; and the sample response gives the text in which [87.5%], [Foo],
    [Bar], [http://src] and [H-Misc] follow one another. *)
Theorem result_text_order (repr : value -> string) :
  (forall data text,
      parse_results repr data = Ok (Some text) ->
      exists d fr rest h rd source_url,
        data = VDict d /\
        Py.get_default d "results" (VList []) = VList (VDict fr :: rest) /\
        Py.get_default fr "header" (VDict ∅) = VDict h /\
        Py.get_default fr "data" (VDict ∅) = VDict rd /\
        source_url_of rd = Ok source_url /\
        text =
          ("🔍 相似度: " +:+ Py.str repr (similarity_of h) +:+ "%"
           +:+ Py.nl +:+ Py.nl) +:+
          ("📝 标题: " +:+ Py.str repr (title_of rd) +:+ Py.nl) +:+
          ("👤 作者: " +:+ Py.str repr (author_of rd) +:+ Py.nl) +:+
          (if Py.truthy source_url
           then "🔗 来源: " +:+ Py.str repr source_url +:+ Py.nl else "") +:+
          (if Py.truthy (index_name_of h)
           then "📚 数据库: " +:+ Py.str repr (index_name_of h) else "")) /\
  parse_results repr sample_body = Ok (Some sample_text) /\
  _parse_saucenao_response repr sample_body = M.ret (Some sample_text) /\
  sample_text =
    "🔍 相似度: " +:+ "87.5%" +:+ (Py.nl +:+ Py.nl +:+ "📝 标题: ") +:+
    "Foo" +:+ (Py.nl +:+ "👤 作者: ") +:+
    "Bar" +:+ (Py.nl +:+ "🔗 来源: ") +:+
    "http://src" +:+ (Py.nl +:+ "📚 数据库: ") +:+
    "H-Misc" +:+ "".
Proof.
  assert (parse_results repr sample_body = Ok (Some sample_text)) as Hsample
    by (vm_compute; reflexivity).
  split; [|split; [exact Hsample|split]].
  - intros data text H.
    destruct (parse_results_text _ _ _ H)
      as (d & fr & rest & h & rd & source_url & Hd & Hr & Hh & Hrd & Hs & Ht).
    exists d, fr, rest, h, rd, source_url.
    rewrite <- format_result_lines. repeat split; assumption.
  - unfold _parse_saucenao_response. rewrite Hsample. reflexivity.
  - vm_compute. reflexivity.
Qed.

Lemma result_text_order_witness :
  exists d fr rest h rd source_url,
    sample_body = VDict d /\
    Py.get_default d "results" (VList []) = VList (VDict fr :: rest) /\
    Py.get_default fr "header" (VDict ∅) = VDict h /\
    Py.get_default fr "data" (VDict ∅) = VDict rd /\
    source_url_of rd = Ok source_url /\
    sample_text =
      ("🔍 相似度: " +:+ Py.str sample_repr (similarity_of h) +:+ "%"
       +:+ Py.nl +:+ Py.nl) +:+
      ("📝 标题: " +:+ Py.str sample_repr (title_of rd) +:+ Py.nl) +:+
      ("👤 作者: " +:+ Py.str sample_repr (author_of rd) +:+ Py.nl) +:+
      (if Py.truthy source_url
       then "🔗 来源: " +:+ Py.str sample_repr source_url +:+ Py.nl else "") +:+
      (if Py.truthy (index_name_of h)
       then "📚 数据库: " +:+ Py.str sample_repr (index_name_of h) else "").
Proof.
  apply (proj1 (result_text_order sample_repr) sample_body sample_text).
  vm_compute. reflexivity.
Defined.

(** ** Exceptions stay inside *)

(** C9 as it stands fails: the task is cancelled while the search is
    awaited, [except Exception] does not take the [CancelledError], and it
    leaves [on_mention]. *)
Lemma cancelled_search_leaves_handler :
  ~ handlers_always_return sample_repr
      (sample_plugin "#nao" (Interrupted CancelledError)) sample_event.
Proof.
  intros [[r H] _]. vm_compute in H. discriminate H.
Qed.

(** C9, as amended: whatever mapping they are given, [on_mention] and
    [on_message] let no [Exception] out.  Each returns a value, a mapping or
    [None], or else passes on the [BaseException] that is no [Exception]
    and that interrupted the one search request it had sent; on a session
    that is never interrupted both return. *)
Theorem handlers_catch_every_exception (repr : value -> string)
    (self : plugin) (data : gmap string value) :
  (forall e, M.outcome (on_mention repr self data) <> Raise (Exception e)) /\
  (forall e, M.outcome (on_message repr self data) <> Raise (Exception e)) /\
  ((exists r, M.outcome (on_mention repr self data) = Ok r) \/
   exists b image_url,
     M.outcome (on_mention repr self data) = Raise (BaseException b) /\
     session_get self saucenao_api_url (search_params self image_url)
     = Interrupted b) /\
  ((exists r, M.outcome (on_message repr self data) = Ok r) \/
   exists b image_url,
     M.outcome (on_message repr self data) = Raise (BaseException b) /\
     session_get self saucenao_api_url (search_params self image_url)
     = Interrupted b) /\
  ((forall url params b, session_get self url params <> Interrupted b) ->
   (exists r, M.outcome (on_mention repr self data) = Ok r) /\
   (exists r, M.outcome (on_message repr self data) = Ok r)).
Proof.
  unfold on_mention, on_message.
  pose proof (handle_outcome_cases repr self data "处理 Nao 图片识别请求")
    as Hmention.
  pose proof (handle_outcome_cases repr self data "处理 Nao 图片识别消息")
    as Hmessage.
  split; [|split; [|split; [|split; [|intros Hnever; split]]]].
  - intros e He.
    destruct Hmention as [[r H] | (b & u & H & _)]; congruence.
  - intros e He.
    destruct Hmessage as [[r H] | (b & u & H & _)]; congruence.
  - destruct Hmention as [H | (b & u & H & Hs & _)]; [left; exact H|].
    right. exists b, u. split; assumption.
  - destruct Hmessage as [H | (b & u & H & Hs & _)]; [left; exact H|].
    right. exists b, u. split; assumption.
  - destruct Hmention as [H | (b & u & _ & Hs & _)]; [exact H|].
    destruct (Hnever _ _ _ Hs).
  - destruct Hmessage as [H | (b & u & _ & Hs & _)]; [exact H|].
    destruct (Hnever _ _ _ Hs).
Qed.

Lemma handlers_catch_every_exception_witness :
  (exists r,
      M.outcome
        (on_mention sample_repr
           (sample_plugin "#nao" (Response 200 (Ok sample_body)))
           sample_event) = Ok r) /\
  (exists r,
      M.outcome
        (on_message sample_repr
           (sample_plugin "#nao" (Response 200 (Ok sample_body)))
           sample_event) = Ok r).
Proof.
  apply (handlers_catch_every_exception sample_repr
           (sample_plugin "#nao" (Response 200 (Ok sample_body)))
           sample_event).
  intros url params b. discriminate.
Defined.

(** A [note] that is not a mapping: extraction raises, the handler logs and
    returns [None], and the session is never asked. *)
Lemma malformed_note_dropped (repr : value -> string) (self : plugin)
    (data : gmap string value) (v : value) :
  data !! "note" = Some v ->
  is_mapping v = false ->
  on_mention repr self data =
    ([LogException "NaoPlugin 处理图片事件出错: " AttributeError], Ok None) /\
  on_message repr self data =
    ([LogException "NaoPlugin 处理图片事件出错: " AttributeError], Ok None).
Proof.
  intros Hv Hm. unfold on_mention, on_message, _handle_image_search_event.
  assert (_extract_images_from_note data = Raise AttributeError) as ->.
  { unfold _extract_images_from_note, Py.get_default. rewrite Hv.
    destruct v; try reflexivity; discriminate. }
  split; reflexivity.
Qed.

Example note_is_a_string :
  on_mention sample_repr (sample_plugin "#nao" (Failure ClientError))
    {["note" := VStr "not a mapping"]} =
  ([LogException "NaoPlugin 处理图片事件出错: " AttributeError], Ok None).
Proof. vm_compute. reflexivity. Qed.


(** * Further properties of the code *)

(** ** The formatter, field by field *)

Lemma author_of_first_truthy (rd : gmap string value) :
  author_of rd =
  default (VStr "未知")
    (List.find Py.truthy
       [Py.get rd "author"; Py.get rd "member_name"; Py.get rd "creator"]).
Proof.
  unfold author_of, Py.or. cbn [List.find].
  destruct (Py.truthy (Py.get rd "author")) eqn:H1; rewrite ?H1; [reflexivity|].
  destruct (Py.truthy (Py.get rd "member_name")) eqn:H2; rewrite ?H2;
    [reflexivity|].
  destruct (Py.truthy (Py.get rd "creator")) eqn:H3; reflexivity.
Qed.

(** X1: the author line of the formatted text shows the first truthy one
    of [author], [member_name], [creator] of the data mapping, in that
    order, and [未知] when none of them is truthy. *)
Theorem author_fallback (repr : value -> string)
    (d fr h rd : gmap string value) (rest : list value) (source_url : value) :
  Py.get_default d "results" (VList []) = VList (VDict fr :: rest) ->
  Py.get_default fr "header" (VDict ∅) = VDict h ->
  Py.get_default fr "data" (VDict ∅) = VDict rd ->
  source_url_of rd = Ok source_url ->
  parse_results repr (VDict d) =
  Ok (Some
        (("🔍 相似度: " +:+ Py.str repr (similarity_of h) +:+ "%"
          +:+ Py.nl +:+ Py.nl) +:+
         ("📝 标题: " +:+ Py.str repr (title_of rd) +:+ Py.nl) +:+
         ("👤 作者: " +:+
          Py.str repr
            (default (VStr "未知")
               (List.find Py.truthy
                  [Py.get rd "author"; Py.get rd "member_name";
                   Py.get rd "creator"])) +:+ Py.nl) +:+
         (if Py.truthy source_url
          then "🔗 来源: " +:+ Py.str repr source_url +:+ Py.nl else "") +:+
         (if Py.truthy (index_name_of h)
          then "📚 数据库: " +:+ Py.str repr (index_name_of h) else ""))).
Proof.
  intros Hr Hh Hd Hs.
  rewrite (parse_results_first _ _ _ _ _ _ Hr Hh Hd), Hs.
  rewrite format_result_lines, author_of_first_truthy. reflexivity.
Qed.

Lemma author_fallback_witness :
  parse_results sample_repr
    (dict [("results",
            VList [dict [("data", dict [("author", VNone);
                                        ("member_name", VStr "Bar");
                                        ("creator", VStr "Qux")])]])]) =
  Ok (Some ("🔍 相似度: 0%" +:+ Py.nl +:+ Py.nl +:+
            "📝 标题: 未知" +:+ Py.nl +:+
            "👤 作者: Bar" +:+ Py.nl)).
Proof.
  etransitivity.
  - apply (author_fallback sample_repr
             (list_to_map
                [("results",
                  VList [dict [("data", dict [("author", VNone);
                                              ("member_name", VStr "Bar");
                                              ("creator", VStr "Qux")])]])])
             (list_to_map [("data", dict [("author", VNone);
                                          ("member_name", VStr "Bar");
                                          ("creator", VStr "Qux")])])
             ∅
             (list_to_map [("author", VNone); ("member_name", VStr "Bar");
                           ("creator", VStr "Qux")])
             [] (VStr "")); reflexivity.
  - vm_compute. reflexivity.
Defined.

(** X2: when [ext_urls] of the data mapping is a non-empty list, the source
    line is made from its first element alone, and is there exactly when
    that element is truthy. *)
Theorem source_line_from_first_link (repr : value -> string)
    (d fr h rd : gmap string value) (rest links : list value) (link : value) :
  Py.get_default d "results" (VList []) = VList (VDict fr :: rest) ->
  Py.get_default fr "header" (VDict ∅) = VDict h ->
  Py.get_default fr "data" (VDict ∅) = VDict rd ->
  rd !! "ext_urls" = Some (VList (link :: links)) ->
  parse_results repr (VDict d) =
  Ok (Some
        (("🔍 相似度: " +:+ Py.str repr (similarity_of h) +:+ "%"
          +:+ Py.nl +:+ Py.nl) +:+
         ("📝 标题: " +:+ Py.str repr (title_of rd) +:+ Py.nl) +:+
         ("👤 作者: " +:+ Py.str repr (author_of rd) +:+ Py.nl) +:+
         (if Py.truthy link
          then "🔗 来源: " +:+ Py.str repr link +:+ Py.nl else "") +:+
         (if Py.truthy (index_name_of h)
          then "📚 数据库: " +:+ Py.str repr (index_name_of h) else ""))).
Proof.
  intros Hr Hh Hd Hl.
  rewrite (parse_results_first _ _ _ _ _ _ Hr Hh Hd).
  unfold source_url_of, Py.get, Py.get_default. rewrite Hl.
  cbn [from_option id Py.truthy length Nat.eqb negb Py.index0 Res.bind].
  rewrite format_result_lines. unfold Py.or.
  destruct (Py.truthy link) eqn:Ht; [rewrite Ht; reflexivity|reflexivity].
Qed.

Lemma source_line_from_first_link_witness :
  parse_results sample_repr
    (dict [("results",
            VList [dict [("data",
                          dict [("ext_urls",
                                 VList [VStr "http://a"; VStr "http://b"])])]])])
  = Ok (Some ("🔍 相似度: 0%" +:+ Py.nl +:+ Py.nl +:+
              "📝 标题: 未知" +:+ Py.nl +:+
              "👤 作者: 未知" +:+ Py.nl +:+
              "🔗 来源: http://a" +:+ Py.nl)).
Proof.
  etransitivity.
  - apply (source_line_from_first_link sample_repr
             (list_to_map
                [("results",
                  VList [dict [("data",
                                dict [("ext_urls",
                                       VList [VStr "http://a";
                                              VStr "http://b"])])]])])
             (list_to_map
                [("data",
                  dict [("ext_urls",
                         VList [VStr "http://a"; VStr "http://b"])])])
             ∅
             (list_to_map
                [("ext_urls", VList [VStr "http://a"; VStr "http://b"])])
             [] [VStr "http://b"] (VStr "http://a")); reflexivity.
  - vm_compute. reflexivity.
Defined.

(** X3: when [ext_urls] is absent from the data mapping, or is not truthy
    ([None], an empty list, an empty string), the text has no source line:
    the author line is followed by the database line, if any. *)
Theorem no_links_no_source_line (repr : value -> string)
    (d fr h rd : gmap string value) (rest : list value) :
  Py.get_default d "results" (VList []) = VList (VDict fr :: rest) ->
  Py.get_default fr "header" (VDict ∅) = VDict h ->
  Py.get_default fr "data" (VDict ∅) = VDict rd ->
  Py.truthy (Py.get rd "ext_urls") = false ->
  parse_results repr (VDict d) =
  Ok (Some
        (("🔍 相似度: " +:+ Py.str repr (similarity_of h) +:+ "%"
          +:+ Py.nl +:+ Py.nl) +:+
         ("📝 标题: " +:+ Py.str repr (title_of rd) +:+ Py.nl) +:+
         ("👤 作者: " +:+ Py.str repr (author_of rd) +:+ Py.nl) +:+
         (if Py.truthy (index_name_of h)
          then "📚 数据库: " +:+ Py.str repr (index_name_of h) else ""))).
Proof.
  intros Hr Hh Hd Hl.
  rewrite (parse_results_first _ _ _ _ _ _ Hr Hh Hd).
  unfold source_url_of. rewrite Hl. cbn [Res.bind].
  rewrite format_result_lines. reflexivity.
Qed.

Lemma no_links_no_source_line_witness :
  parse_results sample_repr
    (dict [("results",
            VList [dict [("header", dict [("index_name", VStr "H-Misc")]);
                         ("data", dict [("ext_urls", VList [])])]])])
  = Ok (Some ("🔍 相似度: 0%" +:+ Py.nl +:+ Py.nl +:+
              "📝 标题: 未知" +:+ Py.nl +:+
              "👤 作者: 未知" +:+ Py.nl +:+
              "📚 数据库: H-Misc")).
Proof.
  etransitivity.
  - apply (no_links_no_source_line sample_repr
             (list_to_map
                [("results",
                  VList [dict [("header",
                                dict [("index_name", VStr "H-Misc")]);
                               ("data", dict [("ext_urls", VList [])])]])])
             (list_to_map [("header", dict [("index_name", VStr "H-Misc")]);
                           ("data", dict [("ext_urls", VList [])])])
             (list_to_map [("index_name", VStr "H-Misc")])
             (list_to_map [("ext_urls", VList [])])
             []); reflexivity.
  - vm_compute. reflexivity.
Defined.

(** X4: a truthy [ext_urls] that cannot be indexed by [0] (a non-empty
    mapping, a number, [True]) makes the whole lookup fail: the formatter
    logs the exception and returns [None], although title and author were
    there. *)
Theorem unindexable_links_drop_result (repr : value -> string)
    (d fr h rd : gmap string value) (rest : list value) (links : value) :
  Py.get_default d "results" (VList []) = VList (VDict fr :: rest) ->
  Py.get_default fr "header" (VDict ∅) = VDict h ->
  Py.get_default fr "data" (VDict ∅) = VDict rd ->
  rd !! "ext_urls" = Some links ->
  Py.truthy links = true ->
  match links with
  | VList _ | VStr _ => False
  | _ => True
  end ->
  exists e,
    _parse_saucenao_response repr (VDict d) =
    ([LogException "解析 SauceNAO 响应失败: " e], Ok None).
Proof.
  intros Hr Hh Hd Hl Ht Hk.
  unfold _parse_saucenao_response.
  rewrite (parse_results_first _ _ _ _ _ _ Hr Hh Hd).
  unfold source_url_of, Py.get, Py.get_default. rewrite Hl.
  cbn [from_option id]. rewrite Ht.
  destruct links; try contradiction; try discriminate;
    cbn [Py.index0 Res.bind]; eexists; reflexivity.
Qed.

Lemma unindexable_links_drop_result_witness :
  exists e,
    _parse_saucenao_response sample_repr
      (dict [("results",
              VList [dict [("data", dict [("title", VStr "Foo");
                                          ("ext_urls", VInt 7)])]])]) =
    ([LogException "解析 SauceNAO 响应失败: " e], Ok None).
Proof.
  apply (unindexable_links_drop_result sample_repr
           (list_to_map
              [("results",
                VList [dict [("data", dict [("title", VStr "Foo");
                                            ("ext_urls", VInt 7)])]])])
           (list_to_map [("data", dict [("title", VStr "Foo");
                                        ("ext_urls", VInt 7)])])
           ∅
           (list_to_map [("title", VStr "Foo"); ("ext_urls", VInt 7)])
           [] (VInt 7)); reflexivity || exact I.
Defined.

(** ** The formatter as a whole *)

(** X5: only the first element of [results] is read.  Two bodies whose
    result lists start with the same element are formatted alike, whatever
    follows it and whatever else the bodies hold. *)
Theorem only_first_result_used (repr : value -> string)
    (d d' : gmap string value) (first : value) (rest rest' : list value) :
  Py.get_default d "results" (VList []) = VList (first :: rest) ->
  Py.get_default d' "results" (VList []) = VList (first :: rest') ->
  _parse_saucenao_response repr (VDict d) =
  _parse_saucenao_response repr (VDict d').
Proof.
  intros Hd Hd'. unfold _parse_saucenao_response, parse_results.
  cbn [Py.as_dict Res.bind]. rewrite Hd, Hd'. reflexivity.
Qed.

Lemma only_first_result_used_witness :
  _parse_saucenao_response sample_repr
    (dict [("results",
            VList [dict [("data", dict [("title", VStr "Foo")])];
                   dict [("data", dict [("title", VStr "Second")])]])]) =
  _parse_saucenao_response sample_repr
    (dict [("results", VList [dict [("data", dict [("title", VStr "Foo")])]]);
           ("header", dict [("status", VInt 0)])]).
Proof.
  apply (only_first_result_used sample_repr _ _
           (dict [("data", dict [("title", VStr "Foo")])])
           [dict [("data", dict [("title", VStr "Second")])]] []);
    reflexivity.
Defined.

(** X6: a first result that has neither [header] nor [data] still gives a
    text, made of the defaults alone: similarity [0], title and author
    [未知], no source line and no database line. *)
Theorem bare_result_defaults (repr : value -> string)
    (d fr : gmap string value) (rest : list value) :
  Py.get_default d "results" (VList []) = VList (VDict fr :: rest) ->
  fr !! "header" = None ->
  fr !! "data" = None ->
  _parse_saucenao_response repr (VDict d) =
  M.ret (Some ("🔍 相似度: 0%" +:+ Py.nl +:+ Py.nl +:+
               "📝 标题: 未知" +:+ Py.nl +:+
               "👤 作者: 未知" +:+ Py.nl)).
Proof.
  intros Hr Hh Hd. unfold _parse_saucenao_response.
  rewrite (parse_results_first repr d fr ∅ ∅ rest Hr).
  - reflexivity.
  - unfold Py.get_default. rewrite Hh. reflexivity.
  - unfold Py.get_default. rewrite Hd. reflexivity.
Qed.

Lemma bare_result_defaults_witness :
  _parse_saucenao_response sample_repr
    (dict [("results", VList [dict [("unrelated", VInt 1)]; VNone])]) =
  M.ret (Some ("🔍 相似度: 0%" +:+ Py.nl +:+ Py.nl +:+
               "📝 标题: 未知" +:+ Py.nl +:+
               "👤 作者: 未知" +:+ Py.nl)).
Proof.
  apply (bare_result_defaults sample_repr _
           (list_to_map [("unrelated", VInt 1)]) [VNone]); reflexivity.
Defined.

(** X7: a body that is not a mapping, a first result that is not a mapping,
    or a [header] or [data] of the first result that is there and is not a
    mapping: the formatter catches the [AttributeError], logs it and
    returns [None]. *)
Theorem malformed_body_gives_none (repr : value -> string) (data : value) :
  is_mapping data = false \/
  (exists d first rest,
      data = VDict d /\
      Py.get_default d "results" (VList []) = VList (first :: rest) /\
      (is_mapping first = false \/
       exists fr,
         first = VDict fr /\
         (is_mapping (Py.get_default fr "header" (VDict ∅)) = false \/
          is_mapping (Py.get_default fr "data" (VDict ∅)) = false))) ->
  _parse_saucenao_response repr data =
  ([LogException "解析 SauceNAO 响应失败: " AttributeError], Ok None).
Proof.
  unfold _parse_saucenao_response, parse_results.
  intros [Hm | (d & first & rest & -> & Hr & H)].
  - destruct data; try discriminate Hm; reflexivity.
  - cbn [Py.as_dict Res.bind]. rewrite Hr.
    cbn [Py.truthy length Nat.eqb negb Py.index0 Res.bind].
    destruct H as [Hm | (fr & -> & H)].
    + destruct first; try discriminate Hm; reflexivity.
    + cbn [Py.as_dict Res.bind].
      destruct (Py.get_default fr "header" (VDict ∅)) as [| | | | | |h];
        try reflexivity.
      destruct H as [H | H]; [discriminate H|].
      cbn [Py.as_dict Res.bind].
      destruct (Py.get_default fr "data" (VDict ∅));
        try reflexivity; discriminate H.
Qed.

Lemma malformed_body_gives_none_witness :
  _parse_saucenao_response sample_repr (VList [VStr "oops"]) =
  ([LogException "解析 SauceNAO 响应失败: " AttributeError], Ok None) /\
  _parse_saucenao_response sample_repr
    (dict [("results", VList [dict [("header", VStr "h")]])]) =
  ([LogException "解析 SauceNAO 响应失败: " AttributeError], Ok None).
Proof.
  split.
  - apply (malformed_body_gives_none sample_repr (VList [VStr "oops"])).
    left. reflexivity.
  - apply (malformed_body_gives_none sample_repr
             (dict [("results", VList [dict [("header", VStr "h")]])])).
    right.
    exists (list_to_map [("results", VList [dict [("header", VStr "h")]])]),
      (dict [("header", VStr "h")]), [].
    split; [reflexivity|]. split; [reflexivity|]. right.
    exists (list_to_map [("header", VStr "h")]).
    split; [reflexivity|]. left. reflexivity.
Defined.

Lemma parse_response_text_or_none (repr : value -> string) (data : value) :
  M.outcome (_parse_saucenao_response repr data) = Ok None \/
  exists rest,
    M.outcome (_parse_saucenao_response repr data) =
    Ok (Some ("🔍 相似度: " +:+ rest)).
Proof.
  rewrite parse_response_outcome.
  destruct (parse_results repr data) as [[text|]|e] eqn:H;
    [right | left; reflexivity | left; reflexivity].
  destruct (parse_results_text _ _ _ H)
    as (d & fr & rest & h & rd & source_url & _ & _ & _ & _ & _ & ->).
  rewrite format_result_lines. rewrite !append_assoc.
  eexists. reflexivity.
Qed.

(** X8: the formatter never raises and never asks the session: whatever
    the body, it returns a text or [None], and a text it returns starts
    with the similarity marker, so it is never empty. *)
Theorem formatter_total (repr : value -> string) (data : value) :
  M.requests (_parse_saucenao_response repr data) = [] /\
  (M.outcome (_parse_saucenao_response repr data) = Ok None \/
   exists rest,
     M.outcome (_parse_saucenao_response repr data) =
     Ok (Some ("🔍 相似度: " +:+ rest))).
Proof.
  split; [apply parse_response_requests | apply parse_response_text_or_none].
Qed.

(** ** The search client and the response *)

(** X9: when the session raises, or answers 200 with a body that cannot be
    read as JSON, the search sends its one request, logs the exception once
    and returns [None]. *)
Theorem failed_request_gives_none (repr : value -> string) (self : plugin)
    (image_url : value) (e : exn) :
  session_get self saucenao_api_url (search_params self image_url) = Failure e \/
  session_get self saucenao_api_url (search_params self image_url)
  = Response 200 (Raise e) ->
  _search_image_by_url repr self image_url =
  ([Get saucenao_api_url (search_params self image_url);
    LogException "SauceNAO 图片搜索失败: " e], Ok None).
Proof.
  intros H. unfold _search_image_by_url, session_request.
  destruct H as [-> | ->]; reflexivity.
Qed.

Lemma failed_request_gives_none_witness :
  _search_image_by_url sample_repr (sample_plugin "#nao" (Failure ClientError))
    (VStr "http://x/a.png") =
  ([Get saucenao_api_url
      (list_to_map [("output_type", VStr "2"); ("url", VStr "http://x/a.png");
                    ("numres", VStr "3"); ("db", VStr "999")]);
    LogException "SauceNAO 图片搜索失败: " ClientError], Ok None).
Proof.
  etransitivity.
  - apply (failed_request_gives_none sample_repr
             (sample_plugin "#nao" (Failure ClientError))
             (VStr "http://x/a.png") ClientError).
    left. reflexivity.
  - vm_compute. reflexivity.
Defined.

(** X10: on a status other than 200 the body is never read: the search
    sends its one request, logs the status code and returns [None]. *)
Theorem non_200_logs_status (repr : value -> string) (self : plugin)
    (image_url : value) (status : Z) (json : result value) :
  session_get self saucenao_api_url (search_params self image_url)
  = Response status json ->
  status <> 200%Z ->
  _search_image_by_url repr self image_url =
  ([Get saucenao_api_url (search_params self image_url);
    LogError ("SauceNAO API 请求失败: " +:+ pretty status)], Ok None).
Proof.
  intros H Hs. unfold _search_image_by_url, session_request. rewrite H.
  unfold M.try_except, M.bind, M.emit, M.ret. cbn [fst snd app].
  destruct (Z.eqb_spec status 200); [contradiction | reflexivity].
Qed.

Lemma non_200_logs_status_witness :
  _search_image_by_url sample_repr
    (sample_plugin "#nao" (Response 429 (Ok sample_body)))
    (VStr "http://x/a.png") =
  ([Get saucenao_api_url
      (list_to_map [("output_type", VStr "2"); ("url", VStr "http://x/a.png");
                    ("numres", VStr "3"); ("db", VStr "999")]);
    LogError "SauceNAO API 请求失败: 429"], Ok None).
Proof.
  etransitivity.
  - apply (non_200_logs_status sample_repr
             (sample_plugin "#nao" (Response 429 (Ok sample_body)))
             (VStr "http://x/a.png") 429 (Ok sample_body));
      [reflexivity | discriminate].
  - vm_compute. reflexivity.
Defined.

(** X11: when the host accepts the response, [_create_response] returns,
    without logging, the mapping that holds [handled = True], the plugin's
    name and the text under the content key, and nothing else. *)
Theorem accepted_response (self : plugin) (response_text valid : value)
    (content_key : string) :
  _validate_plugin_response self (response_of self response_text content_key)
  = Ok valid ->
  Py.truthy valid = true ->
  content_key <> "handled" ->
  content_key <> "plugin_name" ->
  exists response,
    _create_response self response_text content_key = ([], Ok response) /\
    response !! "handled" = Some (VBool true) /\
    response !! "plugin_name" = Some (name self) /\
    response !! content_key = Some response_text /\
    dom response = {["handled"; "plugin_name"; content_key]}.
Proof.
  intros Hv Ht Hh Hp. exists (response_of self response_text content_key).
  split.
  - unfold _create_response. fold (response_of self response_text content_key).
    rewrite Hv. unfold M.try_except, M.bind, M.lift, M.ret. cbn [app].
    rewrite Ht. reflexivity.
  - unfold response_of. repeat split.
    + rewrite lookup_insert_ne, lookup_insert_ne, lookup_insert_eq by congruence.
      reflexivity.
    + rewrite lookup_insert_ne, lookup_insert_eq by congruence. reflexivity.
    + apply lookup_insert_eq.
    + rewrite !dom_insert_L, dom_empty_L. apply set_eq. intros k.
      rewrite !elem_of_union, !elem_of_singleton, elem_of_empty. tauto.
Qed.

Lemma accepted_response_witness :
  exists response,
    _create_response (sample_plugin "#nao" (Failure ClientError))
      (VStr "hello") "response" = ([], Ok response) /\
    response !! "handled" = Some (VBool true) /\
    response !! "plugin_name" = Some (VStr "Nao") /\
    response !! "response" = Some (VStr "hello") /\
    dom response = {["handled"; "plugin_name"; "response"]}.
Proof.
  apply (accepted_response (sample_plugin "#nao" (Failure ClientError))
           (VStr "hello") (VBool true) "response");
    reflexivity || discriminate.
Defined.

(** X12: when the host rejects the response, or its check raises,
    [_create_response] returns the empty mapping, not [None] and not an
    exception; only the raise is logged. *)
Theorem rejected_response_is_empty (self : plugin) (response_text : value)
    (content_key : string) :
  (exists valid,
      _validate_plugin_response self
        (response_of self response_text content_key) = Ok valid /\
      Py.truthy valid = false) \/
  (exists e,
      _validate_plugin_response self
        (response_of self response_text content_key) = Raise e) ->
  M.outcome (_create_response self response_text content_key) = Ok ∅ /\
  M.trace (_create_response self response_text content_key) =
  match _validate_plugin_response self
          (response_of self response_text content_key) with
  | Ok _ => []
  | Raise e => [LogException "创建响应时出错: " e]
  end.
Proof.
  unfold _create_response. fold (response_of self response_text content_key).
  intros [(valid & -> & Ht) | (e & ->)].
  - unfold M.try_except, M.bind, M.lift, M.ret, M.outcome, M.trace.
    cbn [app fst snd]. rewrite Ht. split; reflexivity.
  - split; reflexivity.
Qed.

Lemma rejected_response_is_empty_witness :
  M.outcome
    (_create_response
       {| api_key := VNone; trigger_tag := "#nao";
          session_get := fun _ _ => Failure ClientError;
          name := VStr "Nao";
          _extract_username := fun _ => Ok (VStr "alice");
          _log_plugin_action := fun _ _ => Ok tt;
          _validate_plugin_response := fun _ => Raise HostError |}
       (VStr "hello") "response") = Ok ∅.
Proof.
  refine (proj1 (rejected_response_is_empty _ (VStr "hello") "response" _)).
  right. exists HostError. reflexivity.
Defined.

(** ** The event filter, at its edges *)

Lemma extract_file_untyped (images : list value) (v : value) :
  typed_entry v = false -> extract_file images v = Raise AttributeError.
Proof.
  destruct v as [| | | | | |fi]; try discriminate. unfold typed_entry.
  cbn [extract_file].
  destruct (Py.get_default fi "type" (VStr "")); try discriminate; reflexivity.
Qed.

Lemma for_each_extract_untyped (fs images : list value) :
  forallb typed_entry fs = false ->
  Res.for_each extract_file fs images = Raise AttributeError.
Proof.
  revert images. induction fs as [|v fs IH]; intros images H; [discriminate H|].
  cbn [forallb] in H. cbn [Res.for_each].
  destruct (typed_entry v) eqn:Hv.
  - rewrite (extract_file_typed _ _ Hv). cbn [Res.bind]. apply IH. exact H.
  - rewrite (extract_file_untyped _ _ Hv). reflexivity.
Qed.

(** X13: over a files list, extraction either returns the URLs of the
    image attachments in order, or raises: one mapping entry whose [type]
    is there and is not a str makes the whole extraction raise
    [AttributeError], whatever images stand before or after it. *)
Theorem extraction_all_or_nothing (data note : gmap string value)
    (fs : list value) :
  Py.get_default data "note" (VDict data) = VDict note ->
  Py.get_default note "files" (VList []) = VList fs ->
  _extract_images_from_note data =
  if forallb typed_entry fs then Ok (omap attachment_image fs)
  else Raise AttributeError.
Proof.
  intros Hn Hf. rewrite (extract_images_files _ _ _ Hn Hf).
  destruct (forallb typed_entry fs) eqn:H.
  - rewrite (for_each_extract_typed _ _ H). reflexivity.
  - apply for_each_extract_untyped. exact H.
Qed.

Lemma extraction_all_or_nothing_witness :
  _extract_images_from_note
    {["files" :=
        VList [dict [("type", VStr "image/png"); ("url", VStr "http://x/a.png")];
               dict [("type", VNone); ("url", VStr "http://x/b.png")]]]}
  = Raise AttributeError.
Proof.
  etransitivity.
  - apply (extraction_all_or_nothing _
             {["files" :=
                 VList [dict [("type", VStr "image/png");
                              ("url", VStr "http://x/a.png")];
                        dict [("type", VNone);
                              ("url", VStr "http://x/b.png")]]]}
             [dict [("type", VStr "image/png"); ("url", VStr "http://x/a.png")];
              dict [("type", VNone); ("url", VStr "http://x/b.png")]]);
      reflexivity.
  - reflexivity.
Defined.

Lemma for_each_extract_strs (strs : list string) (images : list value) :
  Res.for_each extract_file (VStr <$> strs) images = Ok images.
Proof.
  induction strs as [|s strs IH]; [reflexivity|]. exact IH.
Qed.

(** X14: a [files] that is not a list.  A str or a mapping is iterated and
    yields no image; [None], a number or a boolean cannot be iterated and
    extraction raises [TypeError] -- an explicit [files: None] is not read
    as no files. *)
Theorem files_not_a_list (data note : gmap string value) (files : value) :
  Py.get_default data "note" (VDict data) = VDict note ->
  Py.get_default note "files" (VList []) = files ->
  match files with
  | VList _ => True
  | VStr _ | VDict _ => _extract_images_from_note data = Ok []
  | _ => _extract_images_from_note data = Raise TypeError
  end.
Proof.
  intros Hn Hf. unfold _extract_images_from_note. rewrite Hn.
  cbn [Py.as_dict Res.bind]. rewrite Hf.
  destruct files; try reflexivity; try exact I;
    cbn [Py.iter Res.bind]; apply for_each_extract_strs.
Qed.

Lemma files_not_a_list_witness :
  _extract_images_from_note {["note" := dict [("files", VNone)]]}
  = Raise TypeError /\
  _extract_images_from_note {["note" := dict [("files", VStr "a.png")]]}
  = Ok [].
Proof.
  split.
  - apply (files_not_a_list {["note" := dict [("files", VNone)]]}
             (list_to_map [("files", VNone)]) VNone); reflexivity.
  - apply (files_not_a_list {["note" := dict [("files", VStr "a.png")]]}
             (list_to_map [("files", VStr "a.png")]) (VStr "a.png"));
      reflexivity.
Defined.

Lemma extract_images_truthy (data : gmap string value) (images : list value) :
  _extract_images_from_note data = Ok images ->
  Forall (fun url => Py.truthy url = true) images.
Proof.
  unfold _extract_images_from_note.
  destruct (Py.as_dict (Py.get_default data "note" (VDict data)))
    as [note|e]; [|discriminate].
  cbn [Res.bind].
  destruct (Py.iter (Py.get_default note "files" (VList []))) as [items|e];
    [|discriminate].
  cbn [Res.bind].
  assert (forall acc,
             Forall (fun url => Py.truthy url = true) acc ->
             Res.for_each extract_file items acc = Ok images ->
             Forall (fun url => Py.truthy url = true) images) as Hloop.
  { induction items as [|v items IH]; intros acc Hacc H.
    - cbn in H. congruence.
    - cbn [Res.for_each] in H.
      destruct (extract_file acc v) as [acc'|e] eqn:Hv; [|discriminate H].
      cbn [Res.bind] in H. apply (IH acc'); [|exact H].
      clear H IH. destruct v as [| | | | | |fi]; cbn [extract_file] in Hv;
        try (inversion Hv; subst; exact Hacc).
      destruct (Py.startswith (Py.get_default fi "type" (VStr "")) "image/")
        as [[|]|e]; cbn [Res.bind] in Hv;
        try discriminate Hv; try (inversion Hv; subst; exact Hacc).
      destruct (Py.truthy (Py.or (Py.get fi "url") (Py.get fi "thumbnailUrl")))
        eqn:Hu; inversion Hv; subst; [|exact Hacc].
      apply Forall_app. split; [exact Hacc|]. constructor; [exact Hu|constructor]. }
  apply Hloop. constructor.
Qed.

(** X15: every URL extraction returns is truthy: neither [None] nor an
    empty string ever reaches the search. *)
Theorem extracted_urls_truthy (data : gmap string value) (images : list value) :
  _extract_images_from_note data = Ok images ->
  Forall (fun url => Py.truthy url = true) images.
Proof. apply extract_images_truthy. Qed.

Lemma extracted_urls_truthy_witness :
  Forall (fun url => Py.truthy url = true)
    [VStr "http://x/a.png"; VStr "http://x/b.jpg"].
Proof.
  apply (extracted_urls_truthy mixed_event). reflexivity.
Defined.

(** X16: a note given bare and the same note wrapped under [note] are
    read alike by the extraction and by the trigger check, whatever else
    stands beside [note] in the event. *)
Theorem wrapped_note_like_bare (self : plugin) (data note : gmap string value) :
  note !! "note" = None ->
  _extract_images_from_note (<["note" := VDict note]> data) =
  _extract_images_from_note note /\
  _has_trigger_tag self (<["note" := VDict note]> data) =
  _has_trigger_tag self note.
Proof.
  intros H. unfold _extract_images_from_note, _has_trigger_tag, Py.get_default.
  rewrite lookup_insert_eq, H. split; reflexivity.
Qed.

Lemma wrapped_note_like_bare_witness :
  _extract_images_from_note sample_event = _extract_images_from_note sample_note /\
  _has_trigger_tag (sample_plugin "#nao" (Failure ClientError)) sample_event =
  _has_trigger_tag (sample_plugin "#nao" (Failure ClientError)) sample_note.
Proof.
  apply (wrapped_note_like_bare (sample_plugin "#nao" (Failure ClientError))
           ∅ sample_note).
  reflexivity.
Defined.

(** ** The trigger check *)

(** X17: over a text that is a str the trigger check never raises, and it
    holds exactly when the text is some prefix, then the tag, then some
    suffix: plain substring containment, byte for byte. *)
Theorem trigger_is_substring (self : plugin) (data note : gmap string value)
    (s : string) :
  Py.get_default data "note" (VDict data) = VDict note ->
  Py.get_default note "text" (VStr "") = VStr s ->
  (exists b, _has_trigger_tag self data = Ok b) /\
  (_has_trigger_tag self data = Ok true <->
   exists pre post, s = pre +:+ trigger_tag self +:+ post).
Proof.
  intros Hn Ht. rewrite (has_trigger_tag_text _ _ _ _ Hn Ht).
  split; [eauto|]. rewrite <- contains_substring.
  split; [intros H; inversion H; reflexivity | intros ->; reflexivity].
Qed.

Lemma trigger_is_substring_witness :
  _has_trigger_tag (sample_plugin "#nao" (Failure ClientError)) sample_event
  = Ok true <->
  exists pre post, "check this #nao" = pre +:+ "#nao" +:+ post.
Proof.
  apply (proj2 (trigger_is_substring
                  (sample_plugin "#nao" (Failure ClientError))
                  sample_event sample_note "check this #nao"
                  eq_refl eq_refl)).
Defined.

(** X18: a text that is absent or not truthy ([None], the empty string,
    [0], an empty list) is read as the empty string, so the check holds
    only for an empty trigger tag. *)
Theorem falsy_text_needs_empty_tag (self : plugin)
    (data note : gmap string value) :
  Py.get_default data "note" (VDict data) = VDict note ->
  Py.truthy (Py.get_default note "text" (VStr "")) = false ->
  _has_trigger_tag self data = Ok (String.eqb (trigger_tag self) "").
Proof.
  intros Hn Ht. unfold _has_trigger_tag. rewrite Hn.
  cbn [Py.as_dict Res.bind]. unfold Py.or. rewrite Ht.
  cbn [Py.contains_tag Py.contains]. destruct (trigger_tag self); reflexivity.
Qed.

Lemma falsy_text_needs_empty_tag_witness :
  _has_trigger_tag (sample_plugin "#nao" (Failure ClientError))
    {["note" := dict [("text", VNone); ("files", VList sample_files)]]}
  = Ok false.
Proof.
  apply (falsy_text_needs_empty_tag
           (sample_plugin "#nao" (Failure ClientError))
           {["note" := dict [("text", VNone); ("files", VList sample_files)]]}
           (list_to_map [("text", VNone); ("files", VList sample_files)]));
    reflexivity.
Defined.

(** X19: a text that is a truthy number or [True] cannot be searched: the
    trigger check raises [TypeError], and an event with an image is then
    dropped by the handler, which logs the exception, returns [None] and
    sends nothing. *)
Theorem numeric_text_drops_event (repr : value -> string) (self : plugin)
    (data note : gmap string value) (action_desc : string)
    (image_url : value) (rest : list value) :
  Py.get_default data "note" (VDict data) = VDict note ->
  Py.truthy (Py.get_default note "text" (VStr "")) = true ->
  match Py.get_default note "text" (VStr "") with
  | VBool _ | VInt _ | VFloat _ => True
  | _ => False
  end ->
  _extract_images_from_note data = Ok (image_url :: rest) ->
  _has_trigger_tag self data = Raise TypeError /\
  _handle_image_search_event repr self data action_desc =
  ([LogException "NaoPlugin 处理图片事件出错: " TypeError], Ok None).
Proof.
  intros Hn Ht Hk Hi.
  assert (_has_trigger_tag self data = Raise TypeError) as Hr.
  { unfold _has_trigger_tag. rewrite Hn. cbn [Py.as_dict Res.bind].
    unfold Py.or. rewrite Ht.
    destruct (Py.get_default note "text" (VStr "")); try contradiction;
      reflexivity. }
  split; [exact Hr|].
  unfold _handle_image_search_event. rewrite Hi, Hr. reflexivity.
Qed.

Lemma numeric_text_drops_event_witness :
  _handle_image_search_event sample_repr
    (sample_plugin "#nao" (Response 200 (Ok sample_body)))
    {["note" := dict [("text", VInt 42); ("files", VList sample_files)]]}
    "处理 Nao 图片识别请求" =
  ([LogException "NaoPlugin 处理图片事件出错: " TypeError], Ok None).
Proof.
  refine (proj2
    (numeric_text_drops_event sample_repr
       (sample_plugin "#nao" (Response 200 (Ok sample_body)))
       {["note" := dict [("text", VInt 42); ("files", VList sample_files)]]}
       (list_to_map [("text", VInt 42); ("files", VList sample_files)])
       "处理 Nao 图片识别请求" (VStr "http://x/a.png") [] _ _ _ _));
    reflexivity || exact I.
Defined.

(** ** The handler as a whole *)

Lemma bind_ext {A B : Type} (c : M.t A) (k k' : A -> M.t B) :
  (forall a, k a = k' a) -> M.bind c k = M.bind c k'.
Proof.
  intros H. destruct c as [tr [a|e]]; [|reflexivity].
  unfold M.bind. rewrite H. reflexivity.
Qed.

(** X20: a call of the handler sends at most one request; when it sends
    one it goes to the fixed endpoint and carries a truthy image URL. *)
Theorem at_most_one_request (repr : value -> string) (self : plugin)
    (data : gmap string value) (action_desc : string) :
  M.requests (_handle_image_search_event repr self data action_desc) = [] \/
  exists image_url,
    Py.truthy image_url = true /\
    M.requests (_handle_image_search_event repr self data action_desc) =
    [(saucenao_api_url, search_params self image_url)].
Proof.
  destruct (_extract_images_from_note data) as [[|image_url rest]|e] eqn:Hi.
  1,3: left; unfold _handle_image_search_event; m_simpl; rewrite Hi; m_simpl;
    reflexivity.
  destruct (_has_trigger_tag self data) as [[|]|e] eqn:Ht.
  2,3: left; unfold _handle_image_search_event; m_simpl; rewrite Hi; m_simpl;
    rewrite Ht; m_simpl; reflexivity.
  destruct (_extract_username self data) as [username|e] eqn:Hu.
  2: left; unfold _handle_image_search_event; m_simpl; rewrite Hi; m_simpl;
    rewrite Ht; m_simpl; rewrite Hu; m_simpl; reflexivity.
  destruct (_log_plugin_action self action_desc
              ("来自 @" +:+ Py.str repr username)) as [[]|e] eqn:Hl.
  2: left; unfold _handle_image_search_event; m_simpl; rewrite Hi; m_simpl;
    rewrite Ht; m_simpl; rewrite Hu; m_simpl; rewrite Hl; m_simpl;
    reflexivity.
  right. exists image_url. split.
  - pose proof (extract_images_truthy _ _ Hi) as H. now inversion H.
  - apply handle_reaching_requests. split; [eauto|]. split; [exact Ht|eauto].
Qed.

(** X21: when a helper of the host raises after the filter has passed, the
    handler logs that exception and returns [None] before any request is
    sent. *)
Theorem host_failure_no_search (repr : value -> string) (self : plugin)
    (data : gmap string value) (action_desc : string)
    (image_url : value) (rest : list value) (e : exn) :
  _extract_images_from_note data = Ok (image_url :: rest) ->
  _has_trigger_tag self data = Ok true ->
  _extract_username self data = Raise e \/
  (exists username,
      _extract_username self data = Ok username /\
      _log_plugin_action self action_desc ("来自 @" +:+ Py.str repr username)
      = Raise e) ->
  _handle_image_search_event repr self data action_desc =
  ([LogException "NaoPlugin 处理图片事件出错: " e], Ok None).
Proof.
  intros Hi Ht H. unfold _handle_image_search_event. rewrite Hi, Ht.
  destruct H as [Hu | (username & Hu & Hl)].
  - rewrite Hu. reflexivity.
  - rewrite Hu. unfold M.try_except, M.bind, M.lift, M.ret.
    cbn [Py.truthy length Nat.eqb negb Py.index0 app]. rewrite Hl.
    reflexivity.
Qed.

Lemma host_failure_no_search_witness :
  _handle_image_search_event sample_repr
    {| api_key := VNone; trigger_tag := "#nao";
       session_get := fun _ _ => Response 200 (Ok sample_body);
       name := VStr "Nao";
       _extract_username := fun _ => Raise HostError;
       _log_plugin_action := fun _ _ => Ok tt;
       _validate_plugin_response := fun _ => Ok (VBool true) |}
    sample_event "处理 Nao 图片识别请求" =
  ([LogException "NaoPlugin 处理图片事件出错: " HostError], Ok None).
Proof.
  apply (host_failure_no_search sample_repr _ sample_event
           "处理 Nao 图片识别请求" (VStr "http://x/a.png") [] HostError);
    [reflexivity | reflexivity | left; reflexivity].
Defined.

(** X22: [on_mention] and [on_message] differ only in the description
    they pass to the host's action log: on a host that logs both alike
    they leave the same trace and return the same value. *)
Theorem mention_like_message (repr : value -> string) (self : plugin)
    (data : gmap string value) :
  (forall detail,
      _log_plugin_action self "处理 Nao 图片识别请求" detail =
      _log_plugin_action self "处理 Nao 图片识别消息" detail) ->
  on_mention repr self data = on_message repr self data.
Proof.
  intros H. unfold on_mention, on_message, _handle_image_search_event.
  f_equal. apply bind_ext. intros images.
  destruct (negb (Py.truthy (VList images))); [reflexivity|].
  apply bind_ext. intros has_tag. destruct (negb has_tag); [reflexivity|].
  apply bind_ext. intros image_url. apply bind_ext. intros username.
  rewrite H. reflexivity.
Qed.

Lemma mention_like_message_witness :
  on_mention sample_repr (sample_plugin "#nao" (Response 200 (Ok sample_body)))
    sample_event =
  on_message sample_repr (sample_plugin "#nao" (Response 200 (Ok sample_body)))
    sample_event.
Proof.
  apply (mention_like_message sample_repr
           (sample_plugin "#nao" (Response 200 (Ok sample_body)))
           sample_event).
  intros detail. reflexivity.
Defined.

(** X23: once the filter has passed and the host's helpers have returned,
    the handler always answers, whatever the session answers and whichever
    [Exception] it raises, as long as no [BaseException] interrupts the
    request: it returns what [_create_response] makes of a text that is
    never empty, the formatted result when there is one and the
    nothing-found message otherwise; it never returns [None]. *)
Theorem reached_search_always_answers (repr : value -> string) (self : plugin)
    (data : gmap string value) (action_desc : string) (image_url : value) :
  reaches_search repr self data action_desc image_url ->
  (forall b,
      session_get self saucenao_api_url (search_params self image_url)
      <> Interrupted b) ->
  exists text,
    text <> "" /\
    (text = nothing_found \/ exists rest, text = "🔍 相似度: " +:+ rest) /\
    M.outcome (_handle_image_search_event repr self data action_desc) =
    Ok (Some (delivered self (VStr text) "response")).
Proof.
  intros Hreach Hnever. rewrite (handle_reaching_outcome _ _ _ _ _ Hreach).
  assert (exists sr,
             M.outcome (_search_image_by_url repr self image_url) = Ok sr /\
             (sr = None \/ exists rest, sr = Some ("🔍 相似度: " +:+ rest)))
    as (sr & -> & Hsr).
  { rewrite search_outcome.
    destruct (session_get self saucenao_api_url (search_params self image_url))
      as [e|status [body|e]|b]; try destruct (status =? 200)%Z; eauto.
    - destruct (parse_response_text_or_none repr body) as [H | [rest H]];
        rewrite parse_response_outcome in H; rewrite H; eauto.
    - destruct (Hnever b eq_refl). }
  destruct Hsr as [-> | [rest ->]].
  - exists nothing_found. split; [discriminate|]. split; [left; reflexivity|].
    reflexivity.
  - exists ("🔍 相似度: " +:+ rest). split; [discriminate|].
    split; [right; eauto|]. reflexivity.
Qed.

Lemma reached_search_always_answers_witness :
  exists text,
    text <> "" /\
    (text = nothing_found \/ exists rest, text = "🔍 相似度: " +:+ rest) /\
    M.outcome
      (_handle_image_search_event sample_repr
         (sample_plugin "#nao" (Failure ClientError))
         sample_event "处理 Nao 图片识别请求") =
    Ok (Some (delivered (sample_plugin "#nao" (Failure ClientError))
                (VStr text) "response")).
Proof.
  apply (reached_search_always_answers sample_repr
           (sample_plugin "#nao" (Failure ClientError))
           sample_event "处理 Nao 图片识别请求" (VStr "http://x/a.png")).
  - split; [exists []; reflexivity|].
    split; [reflexivity|]. exists (VStr "alice"). split; reflexivity.
  - intros b. discriminate.
Defined.

(** X24: end to end: for an event that passes the filter, a 200 answer
    whose body the formatter turns into a text makes the handler return the
    response mapping built from exactly that text. *)
Theorem found_text_is_answered (repr : value -> string) (self : plugin)
    (data : gmap string value) (action_desc : string) (image_url body : value)
    (text : string) :
  reaches_search repr self data action_desc image_url ->
  session_get self saucenao_api_url (search_params self image_url)
  = Response 200 (Ok body) ->
  parse_results repr body = Ok (Some text) ->
  M.outcome (_handle_image_search_event repr self data action_desc) =
  Ok (Some (delivered self (VStr text) "response")).
Proof.
  intros Hreach Hget Hp.
  rewrite (handle_reaching_outcome _ _ _ _ _ Hreach).
  rewrite search_outcome, Hget, Hp. cbn [Z.eqb Pos.eqb].
  destruct (parse_results_text _ _ _ Hp)
    as (d & fr & rest & h & rd & source_url & _ & _ & _ & _ & _ & ->).
  rewrite format_result_lines, !append_assoc. reflexivity.
Qed.

Lemma found_text_is_answered_witness :
  M.outcome
    (_handle_image_search_event sample_repr
       (sample_plugin "#nao" (Response 200 (Ok sample_body)))
       sample_event "处理 Nao 图片识别请求") =
  Ok (Some (list_to_map [("handled", VBool true);
                         ("plugin_name", VStr "Nao");
                         ("response", VStr sample_text)])).
Proof.
  etransitivity.
  - apply (found_text_is_answered sample_repr
             (sample_plugin "#nao" (Response 200 (Ok sample_body)))
             sample_event "处理 Nao 图片识别请求" (VStr "http://x/a.png")
             sample_body sample_text).
    + split; [exists []; reflexivity|].
      split; [reflexivity|]. exists (VStr "alice"). split; reflexivity.
    + reflexivity.
    + vm_compute. reflexivity.
  - vm_compute. reflexivity.
Defined.


(** X25: a [BaseException] that is no [Exception] and is raised while the
    search is awaited is not caught by either [except Exception]: the
    handler has sent its one request, logs nothing, builds no response and
    passes the exception on to its caller. *)
Theorem interrupted_search_propagates (repr : value -> string) (self : plugin)
    (data : gmap string value) (action_desc : string) (image_url : value)
    (b : base_exn) :
  reaches_search repr self data action_desc image_url ->
  session_get self saucenao_api_url (search_params self image_url)
  = Interrupted b ->
  _search_image_by_url repr self image_url =
  ([Get saucenao_api_url (search_params self image_url)],
   Raise (BaseException b)) /\
  _handle_image_search_event repr self data action_desc =
  ([Get saucenao_api_url (search_params self image_url)],
   Raise (BaseException b)).
Proof.
  intros ([rest Hi] & Ht & username & Hu & Hl) Hs.
  assert (_search_image_by_url repr self image_url =
          ([Get saucenao_api_url (search_params self image_url)],
           Raise (BaseException b))) as Hsearch.
  { unfold _search_image_by_url, session_request. rewrite Hs. reflexivity. }
  split; [exact Hsearch|].
  unfold _handle_image_search_event. rewrite Hi, Ht, Hu.
  unfold M.try_except, M.bind, M.lift, M.ret.
  cbn [Py.truthy length Nat.eqb negb Py.index0 app]. rewrite Hl, Hsearch.
  reflexivity.
Qed.

Lemma interrupted_search_propagates_witness :
  on_mention sample_repr (sample_plugin "#nao" (Interrupted CancelledError))
    sample_event =
  ([Get saucenao_api_url
      (list_to_map [("output_type", VStr "2"); ("url", VStr "http://x/a.png");
                    ("numres", VStr "3"); ("db", VStr "999")])],
   Raise (BaseException CancelledError)).
Proof.
  etransitivity.
  - apply (interrupted_search_propagates sample_repr
             (sample_plugin "#nao" (Interrupted CancelledError))
             sample_event "处理 Nao 图片识别请求" (VStr "http://x/a.png")
             CancelledError).
    + split; [exists []; reflexivity|].
      split; [reflexivity|]. exists (VStr "alice"). split; reflexivity.
    + reflexivity.
  - vm_compute. reflexivity.
Defined.
